(** * Seattle building permits: the pandas pipeline of [main.py]

    A shallow embedding of [check_dependencies], [load_and_clean_data],
    [create_time_series], [create_permit_type_analysis], [create_map],
    [generate_summary_stats] and [main], together with the pandas
    operations they call ([to_datetime], [to_numeric], [dropna],
    boolean indexing, [resample], [value_counts], [groupby.agg],
    [quantile], [sum], [mean], [median], [mode]).

    Conventions of the embedding:
    - a [DataFrame] is the list of its rows, in index order;
    - [NaN] / [NaT] / an empty CSV cell is [None];
    - a cost or coordinate is kept as a rational ([Q]); the rounding
      and the overflow of the machine numbers are not modelled, and no
      statement below depends on how sums of costs come out;
    - a raised Python exception is [Raise e];
    - a name is looked up where the code uses it: [pd], [px],
      [folium], [HeatMap], [np] and [datetime] are imported inside
      [main] and so are local to it, the other functions find none of
      them among the names of the module. *)

From Stdlib Require Import String Ascii.
From Stdlib Require Import List ZArith QArith Qround Lqa Bool Lia Permutation Sorted.
Import ListNotations.

Close Scope Q_scope.
Local Open Scope nat_scope.

(** ** Exceptions and results *)

Inductive exn : Type :=
| SystemExit (code : Z)
| ValueError
| IndexError
| NameError
| AttributeError.

Inductive Result (A : Type) : Type :=
| Ok (a : A)
| Raise (e : exn).
Arguments Ok {A} a.
Arguments Raise {A} e.

Definition rbind {A B} (r : Result A) (k : A -> Result B) : Result B :=
  match r with
  | Ok a => k a
  | Raise e => Raise e
  end.

Definition is_raise {A} (r : Result A) : bool :=
  match r with Ok _ => false | Raise _ => true end.

(** ** Timestamps

    A [datetime64[ns]] value, kept as its calendar fields; [ts_nanos]
    is the time of day in nanoseconds.  On well-formed timestamps the
    lexicographic order on the four fields is chronological order. *)

Record Timestamp : Type := mkTs
  { ts_year : Z; ts_month : Z; ts_day : Z; ts_nanos : Z }.

Definition ts_ltb (a b : Timestamp) : bool :=
  ((ts_year a <? ts_year b) ||
   ((ts_year a =? ts_year b) &&
    ((ts_month a <? ts_month b) ||
     ((ts_month a =? ts_month b) &&
      ((ts_day a <? ts_day b) ||
       ((ts_day a =? ts_day b) && (ts_nanos a <? ts_nanos b)))))))%Z.

Definition is_leap (y : Z) : bool :=
  ((y mod 4 =? 0) && (negb (y mod 100 =? 0) || (y mod 400 =? 0)))%Z.

Definition days_in_month (y m : Z) : Z :=
  (if m =? 2 then (if is_leap y then 29 else 28)
   else if (m =? 4) || (m =? 6) || (m =? 9) || (m =? 11) then 30
   else 31)%Z.

(** [t - pd.DateOffset(years=n)]: the year moves back, the day is
    clamped to the length of the target month (29 February becomes
    28 February), the time of day is kept. *)
Definition sub_years (t : Timestamp) (n : Z) : Timestamp :=
  let y := (ts_year t - n)%Z in
  mkTs y (ts_month t) (Z.min (ts_day t) (days_in_month y (ts_month t)))
       (ts_nanos t).

(** ** Rows *)

(** A row as [pd.read_csv] delivers it: text cells, empty cells as
    [None]; the coordinate columns are read as floats. *)
Record RawRow : Type := mkRaw
  { raw_AppliedDate : option string;
    raw_EstProjectCost : option string;
    raw_Latitude : option Q;
    raw_Longitude : option Q;
    raw_PermitTypeMapped : option string;
    raw_OriginalAddress1 : option string }.

(** A row once [AppliedDate] and [EstProjectCost] are converted. *)
Record PermitRecord : Type := mkRec
  { AppliedDate : option Timestamp;
    EstProjectCost : option Q;
    Latitude : option Q;
    Longitude : option Q;
    PermitTypeMapped : option string;
    OriginalAddress1 : option string }.

Definition DataFrame : Type := list PermitRecord.

Definition notna {A} (x : option A) : bool :=
  match x with Some _ => true | None => false end.

(** ** [load_and_clean_data], the conversions

    This section and the following ones describe what the calls of
    the libraries compute.  Whether a function of the program gets as
    far as a call is settled in the function itself, which first has
    to find the library under its name (see [global_name]). *)

Section Parsers.

(** The scalar parsers of pandas: [None] when the text is no date
    (no number). *)
Variable parse_datetime : string -> option Timestamp.
Variable parse_numeric : string -> option Q.

(** One cell of [pd.to_datetime(col)] with the default
    [errors='raise']: a missing cell is [NaT], a text that does not
    parse raises. *)
Definition to_datetime_cell (c : option string) : Result (option Timestamp) :=
  match c with
  | None => Ok None
  | Some s =>
      match parse_datetime s with
      | Some t => Ok (Some t)
      | None => Raise ValueError
      end
  end.

(** One cell of [pd.to_numeric(col, errors='coerce')]. *)
Definition to_numeric_cell (c : option string) : option Q :=
  match c with
  | None => None
  | Some s => parse_numeric s
  end.

(** [pd.to_datetime(df['AppliedDate'])] over the whole column. *)
Fixpoint to_datetime (col : list (option string))
  : Result (list (option Timestamp)) :=
  match col with
  | [] => Ok []
  | c :: rest =>
      rbind (to_datetime_cell c) (fun t =>
      rbind (to_datetime rest) (fun ts => Ok (t :: ts)))
  end.

Definition to_numeric (col : list (option string)) : list (option Q) :=
  map to_numeric_cell col.

(** The frame after both column assignments. *)
Fixpoint assign_columns (rows : list RawRow)
         (dates : list (option Timestamp)) (costs : list (option Q))
  : DataFrame :=
  match rows, dates, costs with
  | r :: rows', d :: dates', c :: costs' =>
      mkRec d c (raw_Latitude r) (raw_Longitude r)
            (raw_PermitTypeMapped r) (raw_OriginalAddress1 r)
      :: assign_columns rows' dates' costs'
  | _, _, _ => []
  end.

End Parsers.

(** ** [load_and_clean_data], the filters *)

(** [df.dropna(subset=['Latitude', 'Longitude'])] *)
Definition has_coordinates (r : PermitRecord) : bool :=
  notna (Latitude r) && notna (Longitude r).

Definition dropna_coordinates (df : DataFrame) : DataFrame :=
  filter has_coordinates df.

(** [df['AppliedDate'] > two_years_ago]: a comparison with [NaT] is
    [False]. *)
Definition applied_after (cutoff : Timestamp) (r : PermitRecord) : bool :=
  match AppliedDate r with
  | Some d => ts_ltb cutoff d
  | None => false
  end.

(** The value of [datetime.now() - pd.DateOffset(years=2)] where
    both names are found. *)
Definition two_years_ago (now : Timestamp) : Timestamp := sub_years now 2.

Definition filter_recent (now : Timestamp) (df : DataFrame) : DataFrame :=
  filter (applied_after (two_years_ago now)) df.

(** The frame returned, and [dropped_rows], the number logged at the
    coordinate step. *)
Definition clean (now : Timestamp) (df : DataFrame) : DataFrame :=
  filter_recent now (dropna_coordinates df).

Definition dropped_rows (df : DataFrame) : nat :=
  length df - length (dropna_coordinates df).

(** ** Sorting

    Every sort of the program is taken as the stable insertion sort
    by a boolean "comes no later than" test; for a total order the
    result is the sorted column whatever algorithm pandas runs. *)

Section Sorting.

Context {A : Type} (leb : A -> A -> bool).

Fixpoint insert_by (x : A) (l : list A) : list A :=
  match l with
  | [] => [x]
  | y :: l' => if leb x y then x :: l else y :: insert_by x l'
  end.

Definition sort_by (l : list A) : list A := fold_right insert_by [] l.

Definition le_by (x y : A) : Prop := leb x y = true.

End Sorting.

(** ** Column reductions of pandas *)

Definition Qlt_bool (a b : Q) : bool := negb (Qle_bool b a).

Fixpoint dropna {A} (col : list (option A)) : list A :=
  match col with
  | [] => []
  | Some x :: rest => x :: dropna rest
  | None :: rest => dropna rest
  end.

Definition Qsum (l : list Q) : Q := fold_right Qplus 0%Q l.

(** [Series.sum()]: [nansum] puts 0 in place of every [NaN] and adds
    the column up, so the sum of no value at all is 0.  The additions
    are exact here, those of the machine round or wrap; the
    statements below use the sum only of columns without any value. *)
Definition fillna_zero (c : option Q) : Q :=
  match c with Some x => x | None => 0%Q end.

Definition col_sum (col : list (option Q)) : Q :=
  Qsum (map fillna_zero col).

(** [Series.count()]: the number of cells that are not [NaN]. *)
Definition col_count {A} (col : list (option A)) : nat :=
  length (filter notna col).

(** [Series.mean()]: [NaN] when no cell holds a value. *)
Definition col_mean (col : list (option Q)) : option Q :=
  match col_count col with
  | O => None
  | S _ => Some (col_sum col / inject_Z (Z.of_nat (col_count col)))%Q
  end.

Definition Qsort (l : list Q) : list Q := sort_by Qle_bool l.

(** The median of a list of values: the middle order statistic, or
    the mean of the two middle ones; nothing for no value. *)
Definition median_values (l : list Q) : option Q :=
  let s := Qsort l in
  let n := length s in
  match n with
  | O => None
  | S _ =>
      if Nat.even n
      then Some ((nth (n / 2 - 1) s 0%Q + nth (n / 2) s 0%Q) / 2)%Q
      else Some (nth (n / 2) s 0%Q)
  end.

(** [Series.median()]: [nanmedian], the median of the cells that are
    not [NaN]. *)
Definition col_median (col : list (option Q)) : option Q :=
  median_values (dropna col).

(** [Series.quantile(q)], [interpolation='linear']: over the sorted
    values that are not [NaN], at the virtual index [q * (n - 1)],
    interpolating between the two neighbouring order statistics;
    [NaN] when there is no value. *)
Definition quantile (q : Q) (col : list (option Q)) : option Q :=
  let s := Qsort (dropna col) in
  match length s with
  | O => None
  | S m =>
      let pos := (q * inject_Z (Z.of_nat m))%Q in
      let lo := Z.to_nat (Qfloor pos) in
      let hi := Nat.min (S lo) m in
      let frac := (pos - inject_Z (Qfloor pos))%Q in
      Some (nth lo s 0%Q + (nth hi s 0%Q - nth lo s 0%Q) * frac)%Q
  end.

(** [col > threshold], elementwise: [False] as soon as one side is
    [NaN]. *)
Definition gt_nan (x threshold : option Q) : bool :=
  match x, threshold with
  | Some a, Some t => Qlt_bool t a
  | _, _ => false
  end.

(** *** Strings: counting, first-appearance order, sorting *)

Definition count_str (x : string) (l : list string) : nat :=
  length (filter (String.eqb x) l).

(** Distinct values in order of first appearance (the hash-table
    pass of [value_counts], [groupby] and [mode]). *)
Fixpoint unique (l : list string) : list string :=
  match l with
  | [] => []
  | x :: xs => x :: filter (fun y => negb (String.eqb y x)) (unique xs)
  end.

Definition str_sort (l : list string) : list string := sort_by String.leb l.

Definition max_count (vals : list string) : nat :=
  fold_right (fun v m => Nat.max (count_str v vals) m) 0 (unique vals).

(** [Series.mode()]: [NaN] left out, the values of greatest count,
    sorted. *)
Definition mode (col : list (option string)) : list string :=
  let vals := dropna col in
  str_sort (filter (fun v => count_str v vals =? max_count vals) (unique vals)).

(** [.iloc[0]] *)
Definition iloc0 {A} (l : list A) : Result A :=
  match l with
  | x :: _ => Ok x
  | [] => Raise IndexError
  end.

(** ** [create_time_series]: [df.resample('ME', on='AppliedDate').size()] *)

Definition ts_min (a b : Timestamp) : Timestamp := if ts_ltb b a then b else a.
Definition ts_max (a b : Timestamp) : Timestamp := if ts_ltb a b then b else a.

(** [Series.min()] and [Series.max()] of a datetime column: [NaT]
    when every cell is [NaT]. *)
Definition col_min (col : list (option Timestamp)) : option Timestamp :=
  match dropna col with
  | [] => None
  | t :: ts => Some (fold_left ts_min ts t)
  end.

Definition col_max (col : list (option Timestamp)) : option Timestamp :=
  match dropna col with
  | [] => None
  | t :: ts => Some (fold_left ts_max ts t)
  end.

(** Calendar months, numbered consecutively. *)
Definition month_index (t : Timestamp) : Z :=
  (ts_year t * 12 + (ts_month t - 1))%Z.

(** The label of a bin: midnight of the last day of the month. *)
Definition month_end (m : Z) : Timestamp :=
  let y := (m / 12)%Z in
  let mo := (m mod 12 + 1)%Z in
  mkTs y mo (days_in_month y mo) 0.

Definition last_nanosecond : Z := 86399999999999%Z.

(** The last bin.  The bin edges run from the month end before the
    earliest date to the month end on or after the latest one, each
    moved to the last instant of its day; a latest date that sits
    exactly on the last instant of its month leaves one more (empty)
    bin behind it.  The last instant is taken here for a column of
    nanosecond resolution; with a coarser column it is the last tick
    of that resolution.  The statements below hold whichever it is:
    they use only that the last bin is not before the month of the
    latest date. *)
Definition last_bin (latest : Timestamp) : Z :=
  if ((ts_day latest =? days_in_month (ts_year latest) (ts_month latest)) &&
      (ts_nanos latest =? last_nanosecond))%Z
  then (month_index latest + 1)%Z
  else month_index latest.

Definition in_month (m : Z) (r : PermitRecord) : bool :=
  match AppliedDate r with
  | Some d => (month_index d =? m)%Z
  | None => false
  end.

Definition count_month (m : Z) (df : DataFrame) : nat :=
  length (filter (in_month m) df).

(** The months [lo], [lo + 1], ..., [lo + n - 1]. *)
Definition month_range (lo : Z) (n : nat) : list Z :=
  map (fun i => (lo + Z.of_nat i)%Z) (seq 0 n).

(** The monthly grid over the rows of a frame: one row per bin, the
    bin's size in the second column ([Date], [Number of Permits]).
    Rows without a date fall in no bin.  (For a frame without rows
    see [resample_size].) *)
Definition monthly_permits (df : DataFrame) : list (Timestamp * nat) :=
  let dates := map AppliedDate df in
  match col_min dates, col_max dates with
  | Some earliest, Some latest =>
      let lo := month_index earliest in
      let hi := last_bin latest in
      map (fun m => (month_end m, count_month m df))
          (month_range lo (Z.to_nat (hi - lo + 1)))
  | _, _ => []
  end.

(** [df.resample('ME', on='AppliedDate').size().reset_index()] as a
    whole: on a frame without rows the call raises [AttributeError],
    on any other frame it yields the grid. *)
Definition resample_size (df : DataFrame) : Result (list (Timestamp * nat)) :=
  match df with
  | [] => Raise AttributeError
  | _ :: _ => Ok (monthly_permits df)
  end.

(** ** [create_permit_type_analysis] *)

(** [df['PermitTypeMapped'].value_counts()]: [NaN] left out, greatest
    count first (values of equal count are left here in order of
    first appearance). *)
Definition value_counts (col : list (option string)) : list (string * nat) :=
  let vals := dropna col in
  sort_by (fun x y => snd y <=? snd x)
          (map (fun v => (v, count_str v vals)) (unique vals)).

Record CategoryStats : Type := mkStats
  { category : string;
    cs_mean : option Q;
    cs_median : option Q;
    cs_count : nat }.

Definition in_group (k : string) (r : PermitRecord) : bool :=
  match PermitTypeMapped r with
  | Some c => String.eqb c k
  | None => false
  end.

(** The [EstProjectCost] cells of one group. *)
Definition group_costs (k : string) (df : DataFrame) : list (option Q) :=
  map EstProjectCost (filter (in_group k) df).

(** The group keys of [df.groupby('PermitTypeMapped')]: the distinct
    values that are not [NaN], sorted. *)
Definition group_keys (df : DataFrame) : list string :=
  str_sort (unique (dropna (map PermitTypeMapped df))).

(** [.agg(['mean', 'median', 'count'])]: each of the three is the
    reduction of the group's cost column. *)
Definition agg_costs (df : DataFrame) : list CategoryStats :=
  map (fun k =>
         let col := group_costs k df in
         mkStats k (col_mean col) (col_median col) (col_count col))
      (group_keys df).

(** Order of [sort_values('mean', ascending=False)]: greater means
    first, [NaN] means last. *)
Definition mean_geb (a b : option Q) : bool :=
  match a, b with
  | Some x, Some y => Qle_bool y x
  | Some _, None => true
  | None, Some _ => false
  | None, None => true
  end.

(** Rows of equal mean are left here in the order of their keys; no
    statement below depends on their order. *)
Definition sort_by_mean (l : list CategoryStats) : list CategoryStats :=
  sort_by (fun x y => mean_geb (cs_mean x) (cs_mean y)) l.

Definition cost_by_type (df : DataFrame) : list CategoryStats :=
  sort_by_mean (agg_costs df).

(** ** [create_map] *)

(** [df[['Latitude', 'Longitude']].values.tolist()] *)
Definition heat_data (df : DataFrame) : list (option Q * option Q) :=
  map (fun r => (Latitude r, Longitude r)) df.

(** [df[df['EstProjectCost'] > df['EstProjectCost'].quantile(0.95)]] *)
Definition cost_threshold (df : DataFrame) : option Q :=
  quantile (95 # 100) (map EstProjectCost df).

Definition is_large (df : DataFrame) (r : PermitRecord) : bool :=
  gt_nan (EstProjectCost r) (cost_threshold df).

Definition large_permits (df : DataFrame) : DataFrame :=
  filter (is_large df) df.

(** ** [generate_summary_stats] *)

(** [strftime('%Y-%m-%d')] keeps the calendar date; on [NaT] it
    raises. *)
Definition strftime_ymd (t : option Timestamp) : Result (Z * Z * Z) :=
  match t with
  | Some d => Ok (ts_year d, ts_month d, ts_day d)
  | None => Raise ValueError
  end.

Record Stats : Type := mkSummary
  { total_permits : nat;
    total_value : Q;
    avg_value : option Q;
    median_value : option Q;
    most_common_type : string;
    date_range : (Z * Z * Z) * (Z * Z * Z) }.

(** The [stats] dictionary; its entries are evaluated in the order
    they are written, so the first failing entry decides the
    exception. *)
Definition summary_stats (df : DataFrame) : Result Stats :=
  let n := length df in
  let total := col_sum (map EstProjectCost df) in
  let avg := col_mean (map EstProjectCost df) in
  let med := col_median (map EstProjectCost df) in
  rbind (iloc0 (mode (map PermitTypeMapped df))) (fun common =>
  rbind (strftime_ymd (col_min (map AppliedDate df))) (fun first =>
  rbind (strftime_ymd (col_max (map AppliedDate df))) (fun last =>
  Ok (mkSummary n total avg med common (first, last))))).

(** ** The program state

    What the functions of [main.py] can touch: the data frame object
    that [main] binds to [df] and hands to every function by
    reference, the files written so far (latest write first), the log,
    the input file and the clock. *)

Inductive Artifact : Type :=
| LineChart (rows : list (Timestamp * nat))
| PieChart (rows : list (string * nat))
| BarChart (rows : list CategoryStats)
| HeatMapPage (heat : list (option Q * option Q)) (markers : DataFrame)
| StatisticsPage (s : Stats).

Inductive LogEvent : Type :=
| Info (msg : string) (args : list nat)
| Error (msg : string).

Record World : Type := mkWorld
  { frame : DataFrame;
    files : list (string * Artifact);
    log : list LogEvent;
    csv : option (list RawRow);
    clock : Timestamp }.

Definition M (A : Type) : Type := World -> World * Result A.

Definition ret {A} (a : A) : M A := fun w => (w, Ok a).

Definition mbind {A B} (c : M A) (k : A -> M B) : M B :=
  fun w =>
    match c w with
    | (w', Ok a) => k a w'
    | (w', Raise e) => (w', Raise e)
    end.

Notation "x <- c ;; k" := (mbind c (fun x => k))
  (at level 61, c at next level, right associativity).
Notation "c ;;; k" := (mbind c (fun _ => k))
  (at level 61, right associativity).

Definition raise {A} (e : exn) : M A := fun w => (w, Raise e).

Definition lift {A} (r : Result A) : M A := fun w => (w, r).

Definition get_frame : M DataFrame := fun w => (w, Ok (frame w)).

Definition set_frame (df : DataFrame) : M unit :=
  fun w => (mkWorld df (files w) (log w) (csv w) (clock w), Ok tt).

Definition logger (ev : LogEvent) : M unit :=
  fun w => (mkWorld (frame w) (files w) (ev :: log w) (csv w) (clock w), Ok tt).

Definition write_file (path : string) (a : Artifact) : M unit :=
  fun w =>
    (mkWorld (frame w) ((path, a) :: files w) (log w) (csv w) (clock w), Ok tt).



(** [SystemExit] is no subclass of [Exception]. *)
Definition is_Exception (e : exn) : bool :=
  match e with
  | SystemExit _ => false
  | _ => true
  end.

(** [try: body / except Exception as e: logger.error(msg); raise] *)
Definition try_log {A} (msg : string) (body : M A) : M A :=
  fun w =>
    match body w with
    | (w', Ok a) => (w', Ok a)
    | (w', Raise e) =>
        if is_Exception e
        then (fst (logger (Error msg) w'), Raise e)
        else (w', Raise e)
    end.

(** The names bound at the level of the module: the imports of
    lines 1-3, [logger] and the functions.  The imports of lines
    198-203 bind names local to [main]. *)
Definition module_globals : list string :=
  [ "sys"; "logging"; "os"; "logger"; "check_dependencies";
    "load_and_clean_data"; "create_time_series";
    "create_permit_type_analysis"; "create_map";
    "generate_summary_stats"; "main" ]%string.

(** Evaluating a global name inside one of the functions other than
    [main]: [NameError] unless the module binds it. *)
Definition global_name (name : string) : M unit :=
  if existsb (String.eqb name) module_globals
  then ret tt
  else raise NameError.

Section Program.

Variable parse_datetime : string -> option Timestamp.
Variable parse_numeric : string -> option Q.

Definition load_and_clean_data : M DataFrame :=
  try_log "Error loading data"
    (fun w =>
       match csv w with
       | None =>
           (logger (Error "File not found") ;;; raise (SystemExit 1)) w
       | Some rows =>
           (logger (Info "Attempting to load data" []) ;;;
            (* df = pd.read_csv(filepath) *)
            global_name "pd" ;;;
            logger (Info "Converting AppliedDate to datetime" []) ;;;
            (* df['AppliedDate'] = pd.to_datetime(df['AppliedDate']) *)
            global_name "pd" ;;;
            dates <- lift (to_datetime parse_datetime
                                       (map raw_AppliedDate rows)) ;;
            (* df['EstProjectCost'] = pd.to_numeric(..., errors='coerce') *)
            global_name "pd" ;;;
            (let df := assign_columns rows dates
                         (to_numeric parse_numeric
                                     (map raw_EstProjectCost rows)) in
             logger (Info "Dropped rows with missing coordinates"
                          [dropped_rows df]) ;;;
             (* two_years_ago = datetime.now() - pd.DateOffset(years=2) *)
             global_name "datetime" ;;;
             global_name "pd" ;;;
             logger (Info "Filtered to permits from the last 2 years"
                          [length (clean (clock w) df)]) ;;;
             ret (clean (clock w) df))) w
       end).

Definition create_time_series : M unit :=
  try_log "Error creating time series"
    (logger (Info "Creating time series visualization" []) ;;;
     df <- get_frame ;;
     monthly <- lift (resample_size df) ;;
     (* fig = px.line(monthly_permits, ...) *)
     global_name "px" ;;;
     write_file "visualizations/permits_time.html" (LineChart monthly) ;;;
     logger (Info "Time series visualization saved" [])).

Definition create_permit_type_analysis : M unit :=
  try_log "Error creating permit type analysis"
    (logger (Info "Creating permit type analysis" []) ;;;
     df <- get_frame ;;
     (let permit_counts := value_counts (map PermitTypeMapped df) in
      (* fig = px.pie(values=permit_counts.values, ...) *)
      global_name "px" ;;;
      write_file "visualizations/permit_types.html" (PieChart permit_counts) ;;;
      (let table := cost_by_type df in
       (* fig2 = px.bar(cost_by_type.reset_index(), ...) *)
       global_name "px" ;;;
       write_file "visualizations/cost_analysis.html" (BarChart table) ;;;
       logger (Info "Permit type analysis saved" [])))).

Definition create_map : M unit :=
  try_log "Error creating map"
    (logger (Info "Creating map visualization" []) ;;;
     (* seattle_map = folium.Map(...) *)
     global_name "folium" ;;;
     df <- get_frame ;;
     (let heat := heat_data df in
      (* HeatMap(heat_data, ...).add_to(seattle_map) *)
      global_name "HeatMap" ;;;
      (let large := large_permits df in
       logger (Info "Adding markers for large permits" [length large]) ;;;
       (* folium.CircleMarker(...) for each large permit *)
       (match large with
        | [] => ret tt
        | _ :: _ => global_name "folium"
        end) ;;;
       write_file "visualizations/permits_map.html" (HeatMapPage heat large) ;;;
       logger (Info "Map visualization saved" [])))).

Definition generate_summary_stats : M Stats :=
  try_log "Error generating summary stats"
    (logger (Info "Generating summary statistics" []) ;;;
     df <- get_frame ;;
     stats <- lift (summary_stats df) ;;
     write_file "statistics.md" (StatisticsPage stats) ;;;
     logger (Info "Summary statistics saved to statistics.md" []) ;;;
     ret stats).

(** [main], after the dependency check and its own imports: the exit
    code. *)
Definition main : World -> World * Z :=
  fun w =>
    match (try_log "An unexpected error occurred"
             (df <- load_and_clean_data ;;
              set_frame df ;;;
              create_time_series ;;;
              create_permit_type_analysis ;;;
              create_map ;;;
              generate_summary_stats)) w with
    | (w', Ok _) => (w', 0%Z)
    | (w', Raise (SystemExit c)) => (w', c)
    | (w', Raise _) => (w', 1%Z)
    end.

End Program.

(** ** Sample inputs

    Two small parsers to run the program on concrete files: dates
    written [YYYY-MM-DD], costs written as a string of digits. *)

Definition digit (c : ascii) : option Z :=
  let n := Z.of_N (N_of_ascii c) in
  if ((48 <=? n) && (n <=? 57))%Z then Some (n - 48)%Z else None.

Fixpoint digits (s : string) (acc : Z) : option Z :=
  match s with
  | EmptyString => Some acc
  | String c s' =>
      match digit c with
      | Some d => digits s' (10 * acc + d)%Z
      | None => None
      end
  end.

Definition parse_iso_date (s : string) : option Timestamp :=
  if negb (String.length s =? 10) then None
  else
    match digits (substring 0 4 s) 0, get 4 s, digits (substring 5 2 s) 0,
          get 7 s, digits (substring 8 2 s) 0 with
    | Some y, Some "-"%char, Some m, Some "-"%char, Some d =>
        if ((1 <=? m) && (m <=? 12) && (1 <=? d) && (d <=? days_in_month y m))%Z
        then Some (mkTs y m d 0)
        else None
    | _, _, _, _, _ => None
    end.

Definition parse_digits (s : string) : option Q :=
  match s with
  | EmptyString => None
  | _ => option_map inject_Z (digits s 0)
  end.

Definition day (y m d : Z) : Timestamp := mkTs y m d 0.

(** A clean row: coordinates of Seattle, a date, a cost cell and a
    permit type. *)
Definition permit (d : Timestamp) (cost : option Q) (type : string)
  : PermitRecord :=
  mkRec (Some d) cost (Some (476062 # 10000)%Q) (Some (-1223321 # 10000)%Q)
        (Some type) (Some "600 4th Ave"%string).

Definition sample_rows : list RawRow :=
  [ mkRaw (Some "2024-03-05") (Some "1200") (Some (476 # 10)%Q)
          (Some (-1223 # 10)%Q) (Some "Building") (Some "1 Pine St");
    mkRaw (Some "not a date") (Some "n/a") (Some (476 # 10)%Q)
          (Some (-1223 # 10)%Q) (Some "Building") (Some "2 Pine St") ]%string.

Definition sample_world : World :=
  mkWorld [] [] [] (Some sample_rows) (day 2025 6 1).

(** Three permits, none applied for in February 2024. *)
Definition gap_frame : DataFrame :=
  [ permit (day 2024 1 15) (Some 100%Q) "Building";
    permit (day 2024 3 2) (Some 250%Q) "Demolition";
    permit (day 2024 3 31) None "Building" ]%string.

(** Two permit types with one permit each, the later in the alphabet
    first. *)
Definition tie_frame : DataFrame :=
  [ permit (day 2024 1 15) (Some 100%Q) "Roof";
    permit (day 2024 1 16) (Some 200%Q) "Building" ]%string.

(** Permits without any cost. *)
Definition no_cost_frame : DataFrame :=
  [ permit (day 2024 1 15) None "Building";
    permit (day 2024 2 16) None "Building" ]%string.

(** An input file of three rows, read on 1 June 2025: one row
    without coordinates, one applied for in 2021. *)
Definition input_rows : list RawRow :=
  [ mkRaw (Some "2024-03-05") (Some "1200") (Some (476 # 10)%Q)
          (Some (-1223 # 10)%Q) (Some "Building") (Some "1 Pine St");
    mkRaw (Some "2024-05-20") (Some "n/a") None
          (Some (-1223 # 10)%Q) (Some "Building") (Some "2 Pine St");
    mkRaw (Some "2021-01-10") (Some "900") (Some (476 # 10)%Q)
          (Some (-1223 # 10)%Q) (Some "Roof") (Some "3 Pine St") ]%string.

Definition input_world : World :=
  mkWorld [] [] [] (Some input_rows) (day 2025 6 1).

(** A frame without rows, as when no permit is recent enough. *)
Definition empty_world : World :=
  mkWorld [] [] [] None (day 2025 6 1).

Definition no_cost_world : World :=
  mkWorld no_cost_frame [] [] None (day 2025 6 1).

(** ** Notions used in the statements *)

(** The calendar fields of a [datetime64[ns]] value. *)
Definition valid_timestamp (t : Timestamp) : Prop :=
  (1 <= ts_month t <= 12 /\
   1 <= ts_day t <= days_in_month (ts_year t) (ts_month t) /\
   0 <= ts_nanos t <= last_nanosecond)%Z.

(** Every row carries a date, as in every frame that
    [load_and_clean_data] returns. *)
Definition dated (df : DataFrame) : Prop :=
  forall r, In r df -> exists d, AppliedDate r = Some d /\ valid_timestamp d.

(** Position of the first occurrence of a value in a column. *)
Fixpoint first_position (x : string) (col : list (option string)) : nat :=
  match col with
  | [] => 0
  | Some y :: rest => if String.eqb y x then 0 else S (first_position x rest)
  | None :: rest => S (first_position x rest)
  end.

Definition month_ok (t : Timestamp) : Prop := (1 <= ts_month t <= 12)%Z.

(** The rows dated in one of the [n] months from [lo] on. *)
Definition in_months (lo : Z) (n : nat) (r : PermitRecord) : bool :=
  match AppliedDate r with
  | Some d => ((lo <=? month_index d) && (month_index d <? lo + Z.of_nat n))%Z
  | None => false
  end.

Definition sum_counts (rows : list (Timestamp * nat)) : nat :=
  fold_right (fun row acc => snd row + acc) 0 rows.

(** ** [check_dependencies] and the script as a whole *)

(** The [required_packages] dictionary, in the order it is written:
    the name to import, the name to install. *)
Definition required_packages : list (string * string) :=
  [ ("pandas", "pandas"); ("plotly.express", "plotly");
    ("folium", "folium"); ("numpy", "numpy") ]%string.

(** The loop of [check_dependencies] over the packages still to try;
    [importable] tells which imports succeed on the machine.  The
    first import that fails is logged and ends the process with
    [sys.exit(1)]. *)
Fixpoint import_all (importable : string -> bool)
         (packages : list (string * string)) : M unit :=
  match packages with
  | [] => ret tt
  | (import_name, _) :: rest =>
      if importable import_name
      then logger (Info ("Successfully imported " ++ import_name) []) ;;;
           import_all importable rest
      else logger (Error ("Failed to import " ++ import_name)) ;;;
           raise (SystemExit 1)
  end.

Definition check_dependencies (importable : string -> bool) : M unit :=
  import_all importable required_packages.

(** [main()] from its first line: the dependency check, then the
    rest. *)
Definition script (importable : string -> bool)
           (parse_datetime : string -> option Timestamp)
           (parse_numeric : string -> option Q) : World -> World * Z :=
  fun w =>
    match check_dependencies importable w with
    | (w', Ok _) => main parse_datetime parse_numeric w'
    | (w', Raise (SystemExit c)) => (w', c)
    | (w', Raise _) => (w', 1%Z)
    end.

(** ** Further notions used in the statements *)

Definition total_counts (rows : list (string * nat)) : nat :=
  fold_right (fun row acc => snd row + acc) 0 rows.

Definition ymd (t : Timestamp) : Z * Z * Z :=
  (ts_year t, ts_month t, ts_day t).

(** [a] is not later than [b]. *)
Definition ts_leb (a b : Timestamp) : bool := negb (ts_ltb b a).

(** Two optional numbers that are both missing or equal as
    rationals. *)
Definition same_value (a b : option Q) : Prop :=
  match a, b with
  | Some x, Some y => (x == y)%Q
  | None, None => True
  | _, _ => False
  end.

(** The input file is absent. *)
Definition missing_world : World :=
  mkWorld [] [] [] None (day 2025 6 1).

Definition no_folium (name : string) : bool :=
  negb (String.eqb name "folium").

(** * Properties *)

(** ** Timestamps *)

Lemma ts_ltb_irrefl (t : Timestamp) : ts_ltb t t = false.
Proof.
  unfold ts_ltb.
  rewrite !Z.ltb_irrefl, !Z.eqb_refl. reflexivity.
Qed.

(** ** Sorting *)

Section SortingFacts.

Context {A : Type} (leb : A -> A -> bool).

Lemma insert_by_perm (x : A) (l : list A) :
  Permutation (x :: l) (insert_by leb x l).
Proof.
  induction l as [|y l IH]; simpl; [apply Permutation_refl|].
  destruct (leb x y); [apply Permutation_refl|].
  eapply perm_trans; [apply perm_swap|]. apply perm_skip, IH.
Qed.

Lemma sort_by_perm (l : list A) : Permutation l (sort_by leb l).
Proof.
  induction l as [|x l IH]; simpl; [apply perm_nil|].
  eapply perm_trans; [apply perm_skip, IH|]. apply insert_by_perm.
Qed.

Lemma sort_by_In (l : list A) (x : A) : In x (sort_by leb l) <-> In x l.
Proof.
  split; apply Permutation_in;
    [apply Permutation_sym|]; apply sort_by_perm.
Qed.

Hypothesis leb_total : forall x y, leb x y = true \/ leb y x = true.
Hypothesis leb_trans :
  forall x y z, leb x y = true -> leb y z = true -> leb x z = true.

Lemma insert_by_sorted (x : A) (l : list A) :
  StronglySorted (le_by leb) l -> StronglySorted (le_by leb) (insert_by leb x l).
Proof.
  induction 1 as [|y l Hs IH Hy]; simpl.
  - constructor; constructor.
  - destruct (leb x y) eqn:E.
    + constructor; [constructor; assumption|].
      constructor; [exact E|].
      eapply Forall_impl; [|exact Hy]. intros z Hz.
      exact (leb_trans _ _ _ E Hz).
    + constructor; [exact IH|].
      eapply Permutation_Forall; [apply insert_by_perm|].
      constructor; [|exact Hy].
      destruct (leb_total x y) as [H|H]; [congruence|exact H].
Qed.

Lemma sort_by_sorted (l : list A) : StronglySorted (le_by leb) (sort_by leb l).
Proof.
  induction l as [|x l IH]; simpl; [constructor|].
  apply insert_by_sorted, IH.
Qed.

Lemma sorted_head (x : A) (l : list A) :
  StronglySorted (le_by leb) (x :: l) -> forall y, In y (x :: l) -> leb x y = true.
Proof.
  intros Hs y [<- | Hin].
  - destruct (leb_total x x); assumption.
  - apply StronglySorted_inv in Hs. destruct Hs as [_ Hx].
    rewrite Forall_forall in Hx. apply Hx, Hin.
Qed.

End SortingFacts.

Lemma Qle_bool_total (x y : Q) : Qle_bool x y = true \/ Qle_bool y x = true.
Proof.
  rewrite !Qle_bool_iff.
  destruct (Qlt_le_dec x y) as [H|H]; [left; apply Qlt_le_weak, H|right; exact H].
Qed.

Lemma Qle_bool_trans (x y z : Q) :
  Qle_bool x y = true -> Qle_bool y z = true -> Qle_bool x z = true.
Proof. rewrite !Qle_bool_iff. apply Qle_trans. Qed.

(** ** Columns of costs *)

Lemma col_sum_all_null (col : list (option Q)) :
  (forall c, In c col -> c = None) -> col_sum col = 0%Q.
Proof.
  unfold col_sum. induction col as [|c col IH]; intros H; simpl; [reflexivity|].
  rewrite (H c (or_introl eq_refl)). simpl.
  rewrite IH; [reflexivity|]. intros c' Hc'. apply H. right. exact Hc'.
Qed.

Lemma summary_stats_fields (df : DataFrame) (s : Stats) :
  summary_stats df = Ok s ->
  total_permits s = length df /\
  total_value s = col_sum (map EstProjectCost df) /\
  avg_value s = col_mean (map EstProjectCost df) /\
  median_value s = col_median (map EstProjectCost df) /\
  iloc0 (mode (map PermitTypeMapped df)) = Ok (most_common_type s).
Proof.
  unfold summary_stats.
  destruct (iloc0 (mode (map PermitTypeMapped df))) as [c|e]; simpl; [|discriminate].
  destruct (strftime_ymd (col_min (map AppliedDate df))) as [a|e]; simpl; [|discriminate].
  destruct (strftime_ymd (col_max (map AppliedDate df))) as [b|e]; simpl; [|discriminate].
  intros H. injection H as <-. simpl. repeat split; reflexivity.
Qed.

Lemma Qsort_sorted (l : list Q) :
  StronglySorted (fun x y => (x <= y)%Q) (Qsort l).
Proof.
  pose proof (sort_by_sorted Qle_bool Qle_bool_total Qle_bool_trans l) as H.
  unfold Qsort. induction H as [|x s Hs IH Hx]; constructor; [exact IH|].
  eapply Forall_impl; [|exact Hx]. intros y Hy. apply Qle_bool_iff, Hy.
Qed.

(** ** Monthly counts *)

Lemma dropna_In {A} (col : list (option A)) (x : A) :
  In x (dropna col) <-> In (Some x) col.
Proof.
  induction col as [|[y|] col IH]; simpl.
  - tauto.
  - rewrite IH. split; intros [H|H]; auto; left; congruence.
  - rewrite IH. split; [auto|]. intros [H|H]; [discriminate|exact H].
Qed.

Lemma ts_ltb_month_le (a b : Timestamp) :
  (1 <= ts_month a <= 12)%Z -> (1 <= ts_month b <= 12)%Z ->
  ts_ltb a b = true -> (month_index a <= month_index b)%Z.
Proof.
  unfold ts_ltb, month_index. intros Ha Hb H.
  destruct (Z.ltb_spec (ts_year a) (ts_year b)); [lia|].
  destruct (Z.eqb_spec (ts_year a) (ts_year b)); [|discriminate].
  destruct (Z.ltb_spec (ts_month a) (ts_month b)); [lia|].
  destruct (Z.eqb_spec (ts_month a) (ts_month b)); [lia|discriminate].
Qed.

Lemma ts_geb_month_le (a b : Timestamp) :
  (1 <= ts_month a <= 12)%Z -> (1 <= ts_month b <= 12)%Z ->
  ts_ltb a b = false -> (month_index b <= month_index a)%Z.
Proof.
  unfold ts_ltb, month_index. intros Ha Hb H.
  destruct (Z.ltb_spec (ts_year a) (ts_year b)); [discriminate|].
  destruct (Z.eqb_spec (ts_year a) (ts_year b)); [|lia].
  destruct (Z.ltb_spec (ts_month a) (ts_month b)); [discriminate|]. lia.
Qed.

Lemma ts_min_cases (a b : Timestamp) : ts_min a b = a \/ ts_min a b = b.
Proof. unfold ts_min. destruct (ts_ltb b a); auto. Qed.

Lemma ts_max_cases (a b : Timestamp) : ts_max a b = a \/ ts_max a b = b.
Proof. unfold ts_max. destruct (ts_ltb a b); auto. Qed.

Lemma ts_min_month (a b : Timestamp) :
  month_ok a -> month_ok b ->
  (month_index (ts_min a b) <= month_index a)%Z /\
  (month_index (ts_min a b) <= month_index b)%Z.
Proof.
  intros Ha Hb. unfold ts_min. destruct (ts_ltb b a) eqn:E.
  - split; [apply ts_ltb_month_le; assumption|lia].
  - split; [lia|apply ts_geb_month_le; assumption].
Qed.

Lemma ts_max_month (a b : Timestamp) :
  month_ok a -> month_ok b ->
  (month_index a <= month_index (ts_max a b))%Z /\
  (month_index b <= month_index (ts_max a b))%Z.
Proof.
  intros Ha Hb. unfold ts_max. destruct (ts_ltb a b) eqn:E.
  - split; [apply ts_ltb_month_le; assumption|lia].
  - split; [lia|apply ts_geb_month_le; assumption].
Qed.

Lemma fold_min_In (ts : list Timestamp) (t : Timestamp) :
  In (fold_left ts_min ts t) (t :: ts).
Proof.
  revert t. induction ts as [|a ts IH]; intros t; simpl; [auto|].
  destruct (IH (ts_min t a)) as [H|H]; [|auto].
  rewrite <- H. destruct (ts_min_cases t a) as [-> | ->]; auto.
Qed.

Lemma fold_max_In (ts : list Timestamp) (t : Timestamp) :
  In (fold_left ts_max ts t) (t :: ts).
Proof.
  revert t. induction ts as [|a ts IH]; intros t; simpl; [auto|].
  destruct (IH (ts_max t a)) as [H|H]; [|auto].
  rewrite <- H. destruct (ts_max_cases t a) as [-> | ->]; auto.
Qed.

Lemma fold_min_month (ts : list Timestamp) (t : Timestamp) :
  Forall month_ok (t :: ts) ->
  forall d, In d (t :: ts) ->
            (month_index (fold_left ts_min ts t) <= month_index d)%Z.
Proof.
  revert t. induction ts as [|a ts IH]; intros t Hok d Hd.
  - destruct Hd as [<- | []]. simpl. lia.
  - inversion Hok as [|? ? Ht Hrest]; subst.
    inversion Hrest as [|? ? Ha Hts]; subst.
    destruct (ts_min_month t a Ht Ha) as [H1 H2].
    assert (Hok' : Forall month_ok (ts_min t a :: ts)).
    { constructor; [|exact Hts].
      destruct (ts_min_cases t a) as [-> | ->]; assumption. }
    simpl. pose proof (IH _ Hok' (ts_min t a) (or_introl eq_refl)) as H0.
    destruct Hd as [<- | [<- | Hd]]; [lia|lia|].
    apply (IH _ Hok'). right. exact Hd.
Qed.

Lemma fold_max_month (ts : list Timestamp) (t : Timestamp) :
  Forall month_ok (t :: ts) ->
  forall d, In d (t :: ts) ->
            (month_index d <= month_index (fold_left ts_max ts t))%Z.
Proof.
  revert t. induction ts as [|a ts IH]; intros t Hok d Hd.
  - destruct Hd as [<- | []]. simpl. lia.
  - inversion Hok as [|? ? Ht Hrest]; subst.
    inversion Hrest as [|? ? Ha Hts]; subst.
    destruct (ts_max_month t a Ht Ha) as [H1 H2].
    assert (Hok' : Forall month_ok (ts_max t a :: ts)).
    { constructor; [|exact Hts].
      destruct (ts_max_cases t a) as [-> | ->]; assumption. }
    simpl. pose proof (IH _ Hok' (ts_max t a) (or_introl eq_refl)) as H0.
    destruct Hd as [<- | [<- | Hd]]; [lia|lia|].
    apply (IH _ Hok'). right. exact Hd.
Qed.

Lemma last_bin_ge (t : Timestamp) : (month_index t <= last_bin t)%Z.
Proof. unfold last_bin. destruct (_ && _); lia. Qed.

Lemma dated_months (df : DataFrame) :
  dated df -> Forall month_ok (dropna (map AppliedDate df)).
Proof.
  intros Hd. apply Forall_forall. intros d Hin.
  apply dropna_In, in_map_iff in Hin. destruct Hin as [r [Er Hr]].
  destruct (Hd r Hr) as [d' [Ed [Hm _]]]. rewrite Ed in Er.
  injection Er as <-. exact Hm.
Qed.

(** The first and the last bin enclose the month of every row. *)
Lemma months_enclosed (df : DataFrame) (earliest latest : Timestamp) :
  dated df ->
  col_min (map AppliedDate df) = Some earliest ->
  col_max (map AppliedDate df) = Some latest ->
  forall r d, In r df -> AppliedDate r = Some d ->
    (month_index earliest <= month_index d <= last_bin latest)%Z.
Proof.
  intros Hd Hmin Hmax r d Hr Ed.
  pose proof (dated_months df Hd) as Hok.
  assert (Hin : In d (dropna (map AppliedDate df))).
  { apply dropna_In. rewrite <- Ed. apply in_map. exact Hr. }
  unfold col_min in Hmin. unfold col_max in Hmax.
  destruct (dropna (map AppliedDate df)) as [|t ts]; [discriminate|].
  injection Hmin as <-. injection Hmax as <-.
  pose proof (fold_min_month ts t Hok d Hin).
  pose proof (fold_max_month ts t Hok d Hin).
  pose proof (last_bin_ge (fold_left ts_max ts t)). lia.
Qed.

Lemma in_months_step (lo : Z) (n : nat) (r : PermitRecord) :
  (if in_months lo (S n) r then 1 else 0) =
  (if in_months lo n r then 1 else 0) +
  (if in_month (lo + Z.of_nat n) r then 1 else 0).
Proof.
  unfold in_months, in_month. destruct (AppliedDate r) as [d|]; [|reflexivity].
  destruct (Z.leb_spec lo (month_index d));
    destruct (Z.ltb_spec (month_index d) (lo + Z.of_nat (S n)));
    destruct (Z.ltb_spec (month_index d) (lo + Z.of_nat n));
    destruct (Z.eqb_spec (month_index d) (lo + Z.of_nat n));
    simpl; lia.
Qed.

Lemma count_months_step (lo : Z) (n : nat) (df : DataFrame) :
  length (filter (in_months lo (S n)) df) =
  length (filter (in_months lo n) df) + count_month (lo + Z.of_nat n) df.
Proof.
  unfold count_month. induction df as [|r df IH]; [reflexivity|].
  simpl. pose proof (in_months_step lo n r) as Hs.
  destruct (in_months lo (S n) r), (in_months lo n r),
    (in_month (lo + Z.of_nat n) r); simpl in *; lia.
Qed.

Lemma sum_counts_app (a b : list (Timestamp * nat)) :
  sum_counts (a ++ b) = sum_counts a + sum_counts b.
Proof.
  unfold sum_counts. induction a as [|x a IH]; simpl; [reflexivity|].
  rewrite IH. lia.
Qed.

Lemma sum_counts_range (lo : Z) (n : nat) (df : DataFrame) :
  sum_counts (map (fun m => (month_end m, count_month m df)) (month_range lo n))
  = length (filter (in_months lo n) df).
Proof.
  induction n as [|n IH].
  - simpl. symmetry. apply length_zero_iff_nil.
    induction df as [|r df IHdf]; [reflexivity|]. simpl.
    unfold in_months at 1. destruct (AppliedDate r) as [d|]; [|exact IHdf].
    destruct (Z.leb_spec lo (month_index d));
      destruct (Z.ltb_spec (month_index d) (lo + Z.of_nat 0)); simpl;
      try lia; exact IHdf.
  - unfold month_range in *. rewrite seq_S, !map_app, sum_counts_app, IH.
    rewrite count_months_step. simpl. lia.
Qed.

Lemma filter_all {A} (f : A -> bool) (l : list A) :
  (forall x, In x l -> f x = true) -> filter f l = l.
Proof.
  induction l as [|a l IH]; intros H; simpl; [reflexivity|].
  rewrite (H a (or_introl eq_refl)), IH; [reflexivity|].
  intros x Hx. apply H. right. exact Hx.
Qed.

Lemma col_min_max_dated (df : DataFrame) :
  dated df -> df <> [] ->
  exists earliest latest,
    col_min (map AppliedDate df) = Some earliest /\
    col_max (map AppliedDate df) = Some latest.
Proof.
  intros Hd Hne. destruct df as [|r df]; [congruence|].
  destruct (Hd r (or_introl eq_refl)) as [d [Ed _]].
  unfold col_min, col_max. simpl. rewrite Ed. simpl. eauto.
Qed.

Lemma monthly_permits_sum (df : DataFrame) :
  dated df -> sum_counts (monthly_permits df) = length df.
Proof.
  intros Hd. destruct df as [|r0 df0] eqn:Edf; [reflexivity|]. rewrite <- Edf in *.
  assert (Hne : df <> []) by (rewrite Edf; discriminate).
  destruct (col_min_max_dated df Hd Hne) as [earliest [latest [Hmin Hmax]]].
  unfold monthly_permits. rewrite Hmin, Hmax. cbv zeta.
  rewrite sum_counts_range. f_equal. apply filter_all.
  intros r Hr. destruct (Hd r Hr) as [d [Ed _]].
  pose proof (months_enclosed df earliest latest Hd Hmin Hmax r d Hr Ed) as H.
  unfold in_months. rewrite Ed.
  apply andb_true_iff. split; [apply Z.leb_le; lia|apply Z.ltb_lt; lia].
Qed.

Lemma month_end_index (d : Timestamp) :
  month_ok d ->
  month_end (month_index d) =
  mkTs (ts_year d) (ts_month d) (days_in_month (ts_year d) (ts_month d)) 0.
Proof.
  unfold month_ok, month_end, month_index. intros Hm.
  assert (Hq : ((ts_year d * 12 + (ts_month d - 1)) / 12 = ts_year d)%Z).
  { symmetry. apply (Z.div_unique _ 12 _ (ts_month d - 1)); lia. }
  assert (Hr : ((ts_year d * 12 + (ts_month d - 1)) mod 12 = ts_month d - 1)%Z).
  { symmetry. apply (Z.mod_unique _ 12 (ts_year d)); lia. }
  cbv zeta. rewrite Hq, Hr.
  replace (ts_month d - 1 + 1)%Z with (ts_month d) by lia. reflexivity.
Qed.

Lemma count_month_pos (m : Z) (df : DataFrame) :
  0 < count_month m df <->
  exists r d, In r df /\ AppliedDate r = Some d /\ month_index d = m.
Proof.
  unfold count_month. split.
  - intros H. destruct (filter (in_month m) df) as [|r l] eqn:E; [simpl in H; lia|].
    assert (Hr : In r (filter (in_month m) df)) by (rewrite E; left; reflexivity).
    apply filter_In in Hr. destruct Hr as [Hr Hm]. unfold in_month in Hm.
    destruct (AppliedDate r) as [d|] eqn:Ed; [|discriminate].
    exists r, d. split; [exact Hr|]. split; [exact Ed|]. apply Z.eqb_eq, Hm.
  - intros [r [d [Hr [Ed Hm]]]].
    assert (Hin : In r (filter (in_month m) df)).
    { apply filter_In. split; [exact Hr|]. unfold in_month. rewrite Ed.
      apply Z.eqb_eq, Hm. }
    destruct (filter (in_month m) df); [destruct Hin|simpl; lia].
Qed.

Ltac dated_rows :=
  let r := fresh "r" in
  let H := fresh "H" in
  intros r H; simpl in H;
  repeat (destruct H as [<- | H];
          [eexists; split; [reflexivity|unfold valid_timestamp; repeat split; vm_compute; discriminate]|]);
  destruct H.

Lemma gap_frame_dated : dated gap_frame.
Proof. dated_rows. Qed.

(** C1 (as stated): on the three permits of [gap_frame], dated in
    January and March 2024, the result has a row for February 2024
    with the count 0, a month in which no permit is dated. *)
Lemma monthly_permits_zero_bucket :
  monthly_permits gap_frame =
    [(day 2024 1 31, 1); (day 2024 2 29, 0); (day 2024 3 31, 2)]
  /\ In (month_end 24289, 0) (monthly_permits gap_frame)
  /\ count_month 24289 gap_frame = 0.
Proof.
  split; [reflexivity|]. split; [|reflexivity].
  right. left. reflexivity.
Qed.

(** ** Distinct values *)

Lemma col_count_dropna {A} (col : list (option A)) :
  col_count col = length (dropna col).
Proof.
  unfold col_count. induction col as [|[x|] col IH]; simpl; congruence.
Qed.

Lemma unique_In (l : list string) (x : string) : In x (unique l) <-> In x l.
Proof.
  induction l as [|y l IH]; simpl; [tauto|].
  rewrite filter_In, IH, negb_true_iff, String.eqb_neq.
  destruct (string_dec y x) as [->|Hne]; [tauto|].
  split; [tauto|]. intros [H|H]; [tauto|]. right. split; [exact H|congruence].
Qed.

Lemma unique_NoDup (l : list string) : NoDup (unique l).
Proof.
  induction l as [|y l IH]; simpl; constructor.
  - rewrite filter_In, negb_true_iff, String.eqb_neq. tauto.
  - apply NoDup_filter, IH.
Qed.

(** ** The most common permit type *)

Lemma string_leb_trans (x y z : string) :
  String.leb x y = true -> String.leb y z = true -> String.leb x z = true.
Proof.
  unfold String.leb. revert y z.
  induction x as [|a x IH]; intros [|b y] [|c z]; simpl;
    try congruence; try discriminate.
  unfold Ascii.compare.
  destruct (N.compare_spec (N_of_ascii a) (N_of_ascii b)) as [E1|L1|G1];
    destruct (N.compare_spec (N_of_ascii b) (N_of_ascii c)) as [E2|L2|G2];
    destruct (N.compare_spec (N_of_ascii a) (N_of_ascii c)) as [E3|L3|G3];
    try lia; try congruence; try discriminate.
  apply IH.
Qed.

Lemma count_str_pos (x : string) (l : list string) :
  0 < count_str x l <-> In x l.
Proof.
  unfold count_str. induction l as [|y l IH]; simpl; [split; [lia|tauto]|].
  destruct (String.eqb_spec x y) as [->|Hne]; simpl.
  - split; [auto|lia].
  - rewrite IH. split; [auto|]. intros [H|H]; [congruence|exact H].
Qed.

Section MaxOver.

Variable f : string -> nat.

Lemma fold_max_ge (l : list string) (v : string) :
  In v l -> f v <= fold_right (fun v m => Nat.max (f v) m) 0 l.
Proof.
  induction l as [|y l IH]; intros Hin; [destruct Hin|].
  simpl. destruct Hin as [-> | Hin]; [lia|]. specialize (IH Hin). lia.
Qed.

Lemma fold_max_attained (l : list string) :
  l <> [] ->
  exists v, In v l /\ f v = fold_right (fun v m => Nat.max (f v) m) 0 l.
Proof.
  induction l as [|y l IH]; intros Hne; [congruence|].
  simpl. destruct l as [|y' l'].
  - exists y. split; [auto|]. simpl. lia.
  - destruct IH as [v [Hv Ev]]; [discriminate|].
    destruct (Nat.max_spec (f y)
                (fold_right (fun v m => Nat.max (f v) m) 0 (y' :: l')))
      as [[_ ->] | [_ ->]].
    + exists v. split; [right; exact Hv|exact Ev].
    + exists y. split; [left; reflexivity|reflexivity].
Qed.

End MaxOver.

Lemma max_count_ge (vals : list string) (v : string) :
  count_str v vals <= max_count vals.
Proof.
  destruct (Nat.eq_dec (count_str v vals) 0) as [E|E]; [lia|].
  unfold max_count. apply (fold_max_ge (fun v => count_str v vals)).
  apply unique_In, count_str_pos. lia.
Qed.

Lemma mode_In (col : list (option string)) (v : string) :
  In v (mode col) <->
  In (Some v) col /\
  count_str v (dropna col) = max_count (dropna col).
Proof.
  unfold mode, str_sort. cbv zeta.
  rewrite sort_by_In, filter_In, unique_In, dropna_In, Nat.eqb_eq. tauto.
Qed.

Lemma mode_first (col : list (option string)) (v : string) :
  In (Some v) col ->
  exists c, iloc0 (mode col) = Ok c /\ In c (mode col) /\
            forall u, In u (mode col) -> String.leb c u = true.
Proof.
  intros Hv.
  assert (Hne : unique (dropna col) <> []).
  { intros E. apply dropna_In, unique_In in Hv. rewrite E in Hv. destruct Hv. }
  destruct (fold_max_attained (fun v => count_str v (dropna col)) _ Hne)
    as [m [Hm Em]].
  assert (Hmode : In m (mode col)).
  { apply mode_In. split; [apply dropna_In, unique_In, Hm|exact Em]. }
  pose proof (sort_by_sorted String.leb String.leb_total string_leb_trans
                (filter (fun v => count_str v (dropna col) =? max_count (dropna col))
                        (unique (dropna col)))) as Hs.
  fold (str_sort (filter (fun v => count_str v (dropna col) =? max_count (dropna col))
                         (unique (dropna col)))) in Hs.
  change (str_sort _) with (mode col) in Hs.
  destruct (mode col) as [|c rest]; [destruct Hmode|].
  exists c. split; [reflexivity|]. split; [left; reflexivity|].
  intros u Hu. exact (sorted_head String.leb String.leb_total c rest Hs u Hu).
Qed.

(** C8 (as the code has it). When some row has a permit type,
    [most_common_type] is a permit type of greatest count, and among
    the types that share the greatest count it is the least in string
    order, [Series.mode()] returning the modes sorted. *)
Theorem most_common_type_least_mode
        (df : DataFrame) (r0 : PermitRecord) (k0 : string) :
  In r0 df -> PermitTypeMapped r0 = Some k0 ->
  let types := dropna (map PermitTypeMapped df) in
  exists c,
    iloc0 (mode (map PermitTypeMapped df)) = Ok c /\
    (forall s, summary_stats df = Ok s -> most_common_type s = c) /\
    (exists r, In r df /\ PermitTypeMapped r = Some c) /\
    (forall v, count_str v types <= count_str c types) /\
    (forall v, count_str v types = count_str c types -> String.leb c v = true).
Proof.
  intros Hr0 Hk0 types.
  assert (H0 : In (Some k0) (map PermitTypeMapped df)).
  { rewrite <- Hk0. apply in_map, Hr0. }
  destruct (mode_first _ k0 H0) as [c [Ec [Hc Hmin]]].
  apply mode_In in Hc. destruct Hc as [Hcin Hcmax]. fold types in Hcmax.
  exists c. split; [exact Ec|]. split; [|split; [|split]].
  - intros s Hs. apply summary_stats_fields in Hs.
    destruct Hs as [_ [_ [_ [_ Hs]]]]. rewrite Ec in Hs. congruence.
  - apply in_map_iff in Hcin. destruct Hcin as [r [Er Hr]]. eauto.
  - intros v. rewrite Hcmax. apply max_count_ge.
  - intros v Hv. apply Hmin, mode_In. fold types.
    split; [|congruence].
    apply dropna_In. fold types. apply count_str_pos.
    rewrite Hv. apply count_str_pos. unfold types. apply dropna_In, Hcin.
Qed.

Lemma most_common_type_least_mode_witness :
  exists c,
    iloc0 (mode (map PermitTypeMapped tie_frame)) = Ok c /\
    (forall s, summary_stats tie_frame = Ok s -> most_common_type s = c) /\
    (exists r, In r tie_frame /\ PermitTypeMapped r = Some c) /\
    (forall v, count_str v (dropna (map PermitTypeMapped tie_frame))
               <= count_str c (dropna (map PermitTypeMapped tie_frame))) /\
    (forall v, count_str v (dropna (map PermitTypeMapped tie_frame))
               = count_str c (dropna (map PermitTypeMapped tie_frame)) ->
               String.leb c v = true).
Proof.
  apply (most_common_type_least_mode tie_frame
           (permit (day 2024 1 15) (Some 100%Q) "Roof") "Roof"%string).
  - left. reflexivity.
  - reflexivity.
Defined.

(** C8 (as stated): "Roof" and "Building" are tied with one permit
    each and "Roof" is met first, yet [most_common_type] is
    "Building". *)
Lemma most_common_type_not_first_met :
  (exists s, summary_stats tie_frame = Ok s /\
             most_common_type s = "Building"%string)
  /\ count_str "Roof" (dropna (map PermitTypeMapped tie_frame))
     = count_str "Building" (dropna (map PermitTypeMapped tie_frame))
  /\ first_position "Roof" (map PermitTypeMapped tie_frame)
     < first_position "Building" (map PermitTypeMapped tie_frame).
Proof.
  split; [|split].
  - eexists. split; [vm_compute; reflexivity|reflexivity].
  - reflexivity.
  - vm_compute. lia.
Qed.

(** ** Summary statistics on degenerate frames *)

Lemma generate_summary_stats_result (w : World) :
  snd (generate_summary_stats w) = summary_stats (frame w).
Proof.
  unfold generate_summary_stats, try_log, mbind, logger, get_frame, lift,
    write_file, ret.
  simpl. destruct (summary_stats (frame w)) as [s|e]; simpl; [reflexivity|].
  destruct (is_Exception e); reflexivity.
Qed.

Lemma most_common_by_mode (df : DataFrame) (r0 : PermitRecord) (k0 : string) :
  In r0 df -> PermitTypeMapped r0 = Some k0 ->
  exists c, iloc0 (mode (map PermitTypeMapped df)) = Ok c.
Proof.
  intros Hr0 Hk0.
  destruct (mode_first (map PermitTypeMapped df) k0) as [c [Ec _]].
  - rewrite <- Hk0. apply in_map, Hr0.
  - exists c. exact Ec.
Qed.

Lemma dropna_all_null {A} (col : list (option A)) :
  (forall c, In c col -> c = None) -> dropna col = [].
Proof.
  induction col as [|c col IH]; intros H; [reflexivity|].
  rewrite (H c (or_introl eq_refl)). simpl. apply IH.
  intros c' Hc'. apply H. right. exact Hc'.
Qed.

Lemma total_costless (df : DataFrame) :
  (forall r, In r df -> EstProjectCost r = None) ->
  col_sum (map EstProjectCost df) = 0%Q /\
  col_mean (map EstProjectCost df) = None /\
  col_median (map EstProjectCost df) = None.
Proof.
  intros Hnull.
  assert (Hcol : forall c, In c (map EstProjectCost df) -> c = None).
  { intros c Hc. apply in_map_iff in Hc. destruct Hc as [r [<- Hr]].
    apply Hnull, Hr. }
  split; [apply col_sum_all_null, Hcol|]. split.
  - unfold col_mean. rewrite col_count_dropna, (dropna_all_null _ Hcol).
    reflexivity.
  - unfold col_median. rewrite (dropna_all_null _ Hcol). reflexivity.
Qed.

(** C6 (as the code has it). On the empty frame
    [generate_summary_stats] raises: taking the first mode of an
    empty column is an [IndexError], which is logged and raised
    again, and [statistics.md] is not written; the missing input
    file ends [load_and_clean_data] differently, with [SystemExit].
    On a frame with rows, dates and permit types but no cost at all
    nothing is raised: the statistics are returned with
    [total_permits] the number of rows, [total_value] 0 and
    [avg_value] and [median_value] both [NaN]. *)
Theorem summary_stats_on_empty_and_costless :
  summary_stats [] = Raise IndexError
  /\ (forall w, frame w = [] ->
        snd (generate_summary_stats w) = Raise IndexError /\
        files (fst (generate_summary_stats w)) = files w /\
        log (fst (generate_summary_stats w)) =
          Error "Error generating summary stats"
          :: Info "Generating summary statistics" [] :: log w)
  /\ (forall parse_datetime parse_numeric w,
        csv w = None ->
        snd (load_and_clean_data parse_datetime parse_numeric w)
        = Raise (SystemExit 1))
  /\ (forall df r0 k0,
        dated df -> In r0 df -> PermitTypeMapped r0 = Some k0 ->
        (forall r, In r df -> EstProjectCost r = None) ->
        exists s,
          summary_stats df = Ok s /\
          total_permits s = length df /\ total_value s = 0%Q /\
          avg_value s = None /\ median_value s = None /\
          forall w, frame w = df -> snd (generate_summary_stats w) = Ok s).
Proof.
  split; [reflexivity|]. split; [|split].
  - intros w Hw. split; [|split].
    + rewrite generate_summary_stats_result, Hw. reflexivity.
    + unfold generate_summary_stats, try_log, mbind, logger, get_frame, lift.
      simpl. rewrite Hw. reflexivity.
    + unfold generate_summary_stats, try_log, mbind, logger, get_frame, lift.
      simpl. rewrite Hw. reflexivity.
  - intros pd pn w Hw. unfold load_and_clean_data, try_log. rewrite Hw.
    reflexivity.
  - intros df r0 k0 Hd Hr0 Hk0 Hnull.
    assert (Hne : df <> []) by (intros ->; destruct Hr0).
    destruct (col_min_max_dated df Hd Hne) as [earliest [latest [Hmin Hmax]]].
    destruct (most_common_by_mode df r0 k0 Hr0 Hk0) as [c Hc].
    pose proof (total_costless df Hnull) as [Hsum [Hmean Hmed]].
    eexists. split.
    { unfold summary_stats. rewrite Hc, Hmin, Hmax. simpl. reflexivity. }
    simpl. split; [reflexivity|]. split; [exact Hsum|].
    split; [exact Hmean|]. split; [exact Hmed|].
    intros w Hw. rewrite generate_summary_stats_result, Hw.
    unfold summary_stats. rewrite Hc, Hmin, Hmax. simpl. reflexivity.
Qed.

Lemma no_cost_frame_dated : dated no_cost_frame.
Proof. dated_rows. Qed.

Lemma summary_stats_on_empty_and_costless_witness :
  exists s,
    summary_stats no_cost_frame = Ok s /\
    total_permits s = 2 /\ total_value s = 0%Q /\
    avg_value s = None /\ median_value s = None /\
    forall w, frame w = no_cost_frame -> snd (generate_summary_stats w) = Ok s.
Proof.
  destruct summary_stats_on_empty_and_costless as [_ [_ [_ H]]].
  apply (H no_cost_frame (permit (day 2024 1 15) None "Building")
           "Building"%string no_cost_frame_dated).
  - left. reflexivity.
  - reflexivity.
  - intros r Hr. simpl in Hr. destruct Hr as [<- | [<- | []]]; reflexivity.
Defined.

(** C6 (as stated): two dated permits of type "Building" without
    cost; [generate_summary_stats] raises nothing and hands back
    [NaN] for [avg_value] and [median_value]. *)
Lemma summary_stats_costless_returns :
  exists s,
    snd (generate_summary_stats no_cost_world) = Ok s /\
    is_raise (snd (generate_summary_stats no_cost_world)) = false /\
    avg_value s = None /\ median_value s = None /\ total_permits s = 2.
Proof.
  eexists. split; [vm_compute; reflexivity|].
  split; [|split; [|split]]; reflexivity.
Qed.

(** * Further properties *)

(** ** The distribution of permit types *)

Lemma total_counts_perm (a b : list (string * nat)) :
  Permutation a b -> total_counts a = total_counts b.
Proof.
  unfold total_counts. induction 1; simpl; lia.
Qed.

Lemma count_str_cons (v x : string) (l : list string) :
  count_str v (x :: l) = (if String.eqb v x then 1 else 0) + count_str v l.
Proof. unfold count_str. simpl. destruct (String.eqb v x); reflexivity. Qed.

Lemma count_str_absent (x : string) (l : list string) :
  ~ In x l -> count_str x l = 0.
Proof.
  intros H. destruct (Nat.eq_dec (count_str x l) 0) as [E|E]; [exact E|].
  exfalso. apply H, count_str_pos. lia.
Qed.

(** Summing a function over a duplicate-free list, one value set
    apart. *)
Lemma sum_without (f : string -> nat) (x : string) (l : list string) :
  NoDup l ->
  fold_right (fun v acc => f v + acc) 0 l =
  (if in_dec string_dec x l then f x else 0) +
  fold_right (fun v acc => f v + acc) 0
             (filter (fun y => negb (String.eqb y x)) l).
Proof.
  induction 1 as [|y l Hy Hnd IH]; simpl; [reflexivity|].
  destruct (String.eqb_spec y x) as [->|Hne]; simpl.
  - destruct (string_dec x x) as [E|C]; [|congruence].
    rewrite IH. destruct (in_dec string_dec x l) as [Hin|Hout]; [contradiction|].
    lia.
  - destruct (string_dec y x) as [C|C]; [congruence|].
    rewrite IH. destruct (in_dec string_dec x l); lia.
Qed.

Lemma sum_ext_in (f g : string -> nat) (l : list string) :
  (forall v, In v l -> f v = g v) ->
  fold_right (fun v acc => f v + acc) 0 l =
  fold_right (fun v acc => g v + acc) 0 l.
Proof.
  induction l as [|y l IH]; intros H; simpl; [reflexivity|].
  rewrite (H y (or_introl eq_refl)), IH; [reflexivity|].
  intros v Hv. apply H. right. exact Hv.
Qed.

Lemma counts_over_unique (vals : list string) :
  fold_right (fun v acc => count_str v vals + acc) 0 (unique vals)
  = length vals.
Proof.
  induction vals as [|x xs IH]; [reflexivity|].
  simpl unique. simpl fold_right. rewrite count_str_cons, String.eqb_refl.
  rewrite (sum_ext_in (fun v => count_str v (x :: xs))
                      (fun v => count_str v xs)).
  - pose proof (sum_without (fun v => count_str v xs) x (unique xs)
                            (unique_NoDup xs)) as Hsplit.
    cbv beta in Hsplit. rewrite IH in Hsplit. simpl length.
    destruct (in_dec string_dec x (unique xs)) as [Hin|Hout]; [lia|].
    rewrite (count_str_absent x xs) in *; [lia|].
    intros Hx. apply Hout, unique_In, Hx.
  - intros v Hv. apply filter_In in Hv. destruct Hv as [_ Hv].
    rewrite count_str_cons. apply negb_true_iff, String.eqb_neq in Hv.
    destruct (String.eqb_spec v x); [congruence|reflexivity].
Qed.

Lemma total_counts_map (f : string -> nat) (l : list string) :
  total_counts (map (fun v => (v, f v)) l)
  = fold_right (fun v acc => f v + acc) 0 l.
Proof.
  unfold total_counts. induction l as [|y l IH]; simpl; congruence.
Qed.

(** X9. The slices of the pie chart account for every row that has a
    permit type, once each: the counts of [value_counts] add up to
    the number of such rows, every type of the frame has exactly one
    entry, and that entry holds the number of rows of the type. *)
Theorem value_counts_partition (df : DataFrame) :
  total_counts (value_counts (map PermitTypeMapped df))
  = length (filter (fun r => notna (PermitTypeMapped r)) df)
  /\ (forall k n,
        In (k, n) (value_counts (map PermitTypeMapped df)) <->
        (exists r, In r df /\ PermitTypeMapped r = Some k) /\
        n = length (filter (in_group k) df))
  /\ NoDup (map fst (value_counts (map PermitTypeMapped df))).
Proof.
  set (col := map PermitTypeMapped df).
  assert (Hperm : Permutation
            (map (fun v => (v, count_str v (dropna col))) (unique (dropna col)))
            (value_counts col)) by apply sort_by_perm.
  assert (Hgroup : forall k, count_str k (dropna col)
                             = length (filter (in_group k) df)).
  { intros k. unfold col, count_str, in_group. clear Hperm.
    induction df as [|r df IH]; [reflexivity|]. simpl.
    destruct (PermitTypeMapped r) as [c|]; simpl; [|exact IH].
    rewrite (String.eqb_sym k c). destruct (String.eqb c k); simpl; congruence. }
  split; [|split].
  - rewrite <- (total_counts_perm _ _ Hperm), total_counts_map, counts_over_unique.
    unfold col. clear. induction df as [|r df IH]; [reflexivity|]. simpl.
    destruct (PermitTypeMapped r); simpl; congruence.
  - intros k n. split.
    + intros Hin. apply (Permutation_in _ (Permutation_sym Hperm)) in Hin.
      apply in_map_iff in Hin. destruct Hin as [v [Ev Hv]].
      injection Ev as Ek En. subst k n. split; [|apply Hgroup].
      apply unique_In, dropna_In in Hv. unfold col in Hv.
      apply in_map_iff in Hv. destruct Hv as [r [Er Hr]]. eauto.
    + intros [[r [Hr Er]] ->]. apply (Permutation_in _ Hperm).
      rewrite <- Hgroup.
      apply (in_map (fun v => (v, count_str v (dropna col)))).
      apply unique_In, dropna_In. unfold col. rewrite <- Er. apply in_map, Hr.
  - eapply Permutation_NoDup; [apply Permutation_map, Hperm|].
    rewrite map_map. simpl. rewrite map_id. apply unique_NoDup.
Qed.

Lemma sorted_by_impl {A} (leb : A -> A -> bool) (R : A -> A -> Prop)
      (l : list A) :
  (forall x y, leb x y = true -> R x y) ->
  StronglySorted (le_by leb) l -> StronglySorted R l.
Proof.
  intros HR. induction 1 as [|x l Hs IH Hx]; constructor; [exact IH|].
  eapply Forall_impl; [|exact Hx]. intros y Hy. apply HR, Hy.
Qed.

(** X10. The slices of the pie chart come in descending order of their
    counts. *)
Theorem value_counts_descending (col : list (option string)) :
  StronglySorted (fun a b => snd b <= snd a) (value_counts col).
Proof.
  unfold value_counts.
  apply (sorted_by_impl (fun x y : string * nat => snd y <=? snd x)).
  - intros x y H. apply Nat.leb_le, H.
  - apply sort_by_sorted.
    + intros x y. rewrite !Nat.leb_le. lia.
    + intros x y z. rewrite !Nat.leb_le. lia.
Qed.

(** ** Whole runs of [main] *)

Ltac run_main :=
  cbv [main try_log mbind ret raise lift logger get_frame set_frame write_file
       create_time_series create_permit_type_analysis create_map
       generate_summary_stats is_Exception fst snd
       frame files log csv clock].

(** X3. Without the input file nothing is computed: the run ends with
    exit status 1, no file is written, and the log gains the single
    entry of the missing file ([SystemExit] passes both exception
    handlers unlogged). *)
Theorem main_without_input
        (parse_datetime : string -> option Timestamp)
        (parse_numeric : string -> option Q) (w : World) :
  csv w = None ->
  snd (main parse_datetime parse_numeric w) = 1%Z
  /\ files (fst (main parse_datetime parse_numeric w)) = files w
  /\ frame (fst (main parse_datetime parse_numeric w)) = frame w
  /\ log (fst (main parse_datetime parse_numeric w))
     = Error "File not found" :: log w.
Proof.
  intros Hcsv. destruct w as [fr fs lg cs ck]. simpl in Hcsv. subst cs.
  unfold main, load_and_clean_data. run_main. repeat split.
Qed.

Lemma main_without_input_witness :
  snd (main parse_iso_date parse_digits missing_world) = 1%Z
  /\ files (fst (main parse_iso_date parse_digits missing_world)) = []
  /\ frame (fst (main parse_iso_date parse_digits missing_world)) = []
  /\ log (fst (main parse_iso_date parse_digits missing_world))
     = [Error "File not found"].
Proof.
  apply (main_without_input parse_iso_date parse_digits missing_world).
  reflexivity.
Defined.

(** ** The dependency check *)

Lemma main_exit_status
      (parse_datetime : string -> option Timestamp)
      (parse_numeric : string -> option Q) (w : World) :
  snd (main parse_datetime parse_numeric w) = 1%Z.
Proof.
  destruct w as [fr fs lg cs ck]. destruct cs as [rows|]; reflexivity.
Qed.

Lemma import_all_frame (importable : string -> bool)
      (packages : list (string * string)) (w : World) :
  let w' := fst (import_all importable packages w) in
  frame w' = frame w /\ files w' = files w /\
  csv w' = csv w /\ clock w' = clock w.
Proof.
  revert w. induction packages as [|[name pkg] rest IH]; intros w; simpl.
  - auto.
  - destruct (importable name); unfold mbind, logger, raise; simpl.
    + specialize (IH (mkWorld (frame w) (files w)
                        (Info ("Successfully imported " ++ name) [] :: log w)
                        (csv w) (clock w))).
      simpl in IH.
      destruct (import_all importable rest _) as [w1 [u|e]]; simpl in *; exact IH.
    + auto.
Qed.

Lemma import_all_result (importable : string -> bool)
      (packages : list (string * string)) (w : World) :
  snd (import_all importable packages w) =
  if forallb (fun p => importable (fst p)) packages
  then Ok tt else Raise (SystemExit 1).
Proof.
  revert w. induction packages as [|[name pkg] rest IH]; intros w; simpl.
  - reflexivity.
  - destruct (importable name); unfold mbind, logger, raise; simpl.
    + specialize (IH (mkWorld (frame w) (files w)
                        (Info ("Successfully imported " ++ name) [] :: log w)
                        (csv w) (clock w))).
      destruct (import_all importable rest _) as [w1 [u|e]]; simpl in *.
      * rewrite <- IH. destruct u. reflexivity.
      * exact IH.
    + reflexivity.
Qed.

Lemma import_all_log (importable : string -> bool)
      (before after : list (string * string)) (name pkg : string) (w : World) :
  forallb (fun p => importable (fst p)) before = true ->
  importable name = false ->
  log (fst (import_all importable (before ++ (name, pkg) :: after) w)) =
  Error ("Failed to import " ++ name)
  :: rev (map (fun p => Info ("Successfully imported " ++ fst p) []) before)
  ++ log w.
Proof.
  revert w. induction before as [|[n0 p0] before IH]; intros w Hb Hn; simpl.
  - rewrite Hn. reflexivity.
  - simpl in Hb. apply andb_true_iff in Hb. destruct Hb as [H0 Hb].
    rewrite H0. unfold mbind at 1, logger at 1. simpl.
    specialize (IH (mkWorld (frame w) (files w)
                      (Info ("Successfully imported " ++ n0) [] :: log w)
                      (csv w) (clock w)) Hb Hn).
    destruct (import_all importable (before ++ (name, pkg) :: after) _)
      as [w1 [u|e]]; simpl in *; rewrite IH, <- app_assoc; reflexivity.
Qed.

(** X4. [check_dependencies] lets the script go on exactly when the four
    packages can all be imported.  Otherwise the process ends with
    exit status 1 at the first package, in the order pandas,
    plotly.express, folium, numpy, that cannot: the log names that
    package after the ones imported before it, the input file is
    not looked at and no file is written.  When the check passes,
    the exit status is the one of the rest of [main]. *)
Theorem script_dependency_check
        (importable : string -> bool)
        (parse_datetime : string -> option Timestamp)
        (parse_numeric : string -> option Q) (w : World) :
  (snd (check_dependencies importable w) = Ok tt <->
   forall p, In p required_packages -> importable (fst p) = true)
  /\ (forall before name pkg after,
        required_packages = before ++ (name, pkg) :: after ->
        (forall p, In p before -> importable (fst p) = true) ->
        importable name = false ->
        let w' := fst (script importable parse_datetime parse_numeric w) in
        snd (check_dependencies importable w) = Raise (SystemExit 1) /\
        snd (script importable parse_datetime parse_numeric w) = 1%Z /\
        files w' = files w /\ frame w' = frame w /\
        log w' =
          Error ("Failed to import " ++ name)
          :: rev (map (fun p => Info ("Successfully imported " ++ fst p) [])
                      before)
          ++ log w)
  /\ ((forall p, In p required_packages -> importable (fst p) = true) ->
      snd (script importable parse_datetime parse_numeric w)
      = snd (main parse_datetime parse_numeric w)).
Proof.
  pose proof (import_all_result importable required_packages w) as Hres.
  pose proof (import_all_frame importable required_packages w) as Hfr.
  fold (check_dependencies importable) in Hres, Hfr. cbv zeta in Hfr.
  split; [|split].
  - rewrite Hres. rewrite <- forallb_forall.
    destruct (forallb _ required_packages); split; congruence.
  - intros before name pkg after Hpk Hbefore Hname w'. subst w'.
    assert (Hb : forallb (fun p => importable (fst p)) before = true)
      by (apply forallb_forall, Hbefore).
    assert (Hall : forallb (fun p => importable (fst p)) required_packages
                   = false).
    { rewrite Hpk, forallb_app. simpl. rewrite Hname, andb_false_r. reflexivity. }
    rewrite Hall in Hres.
    pose proof (import_all_log importable before after name pkg w Hb Hname)
      as Hlog.
    rewrite <- Hpk in Hlog. fold (check_dependencies importable) in Hlog.
    split; [exact Hres|]. unfold script.
    destruct (check_dependencies importable w) as [w1 r]. simpl in *.
    subst r. simpl. tauto.
  - intros Hall. apply forallb_forall in Hall. rewrite Hall in Hres.
    unfold script.
    destruct (check_dependencies importable w) as [w1 r]. simpl in *.
    subst r. rewrite !main_exit_status. reflexivity.
Qed.

Lemma script_dependency_check_witness :
  snd (check_dependencies no_folium input_world) = Raise (SystemExit 1) /\
  snd (script no_folium parse_iso_date parse_digits input_world) = 1%Z /\
  files (fst (script no_folium parse_iso_date parse_digits input_world)) = [] /\
  frame (fst (script no_folium parse_iso_date parse_digits input_world)) = [] /\
  log (fst (script no_folium parse_iso_date parse_digits input_world)) =
    [ Error "Failed to import folium";
      Info "Successfully imported plotly.express" [];
      Info "Successfully imported pandas" [] ].
Proof.
  destruct (script_dependency_check no_folium parse_iso_date parse_digits
              input_world) as [_ [H _]].
  apply (H [("pandas", "pandas"); ("plotly.express", "plotly")]%string
           "folium"%string "folium"%string [("numpy", "numpy")]%string).
  - reflexivity.
  - intros p Hp. simpl in Hp. destruct Hp as [<- | [<- | []]]; reflexivity.
  - reflexivity.
Defined.

(** ** Reordered lists *)

Lemma filter_length_perm {A} (f : A -> bool) (a b : list A) :
  Permutation a b -> length (filter f a) = length (filter f b).
Proof.
  induction 1 as [|x a b Hp IH|x y a|a b c H1 IH1 H2 IH2]; simpl.
  - reflexivity.
  - destruct (f x); simpl; congruence.
  - destruct (f x), (f y); reflexivity.
  - congruence.
Qed.

(** ** The date range of the statistics *)

Lemma ts_ltb_iff (a b : Timestamp) :
  ts_ltb a b = true <->
  (ts_year a < ts_year b \/
   ts_year a = ts_year b /\
   (ts_month a < ts_month b \/
    ts_month a = ts_month b /\
    (ts_day a < ts_day b \/
     ts_day a = ts_day b /\ ts_nanos a < ts_nanos b)))%Z.
Proof.
  unfold ts_ltb.
  rewrite !orb_true_iff, !andb_true_iff, !orb_true_iff, !andb_true_iff,
    !orb_true_iff, !andb_true_iff, !Z.ltb_lt, !Z.eqb_eq.
  reflexivity.
Qed.

Lemma ts_leb_iff (a b : Timestamp) :
  ts_leb a b = true <-> ~ (ts_ltb b a = true).
Proof.
  unfold ts_leb. rewrite negb_true_iff. destruct (ts_ltb b a); split; congruence.
Qed.

Lemma ts_leb_refl (a : Timestamp) : ts_leb a a = true.
Proof. unfold ts_leb. rewrite ts_ltb_irrefl. reflexivity. Qed.

Lemma ts_leb_trans (a b c : Timestamp) :
  ts_leb a b = true -> ts_leb b c = true -> ts_leb a c = true.
Proof. rewrite !ts_leb_iff, !ts_ltb_iff. lia. Qed.

Lemma ts_min_leb (a b : Timestamp) :
  ts_leb (ts_min a b) a = true /\ ts_leb (ts_min a b) b = true.
Proof.
  unfold ts_min. destruct (ts_ltb b a) eqn:E.
  - split; [|apply ts_leb_refl].
    apply ts_leb_iff. apply ts_ltb_iff in E. rewrite ts_ltb_iff. lia.
  - split; [apply ts_leb_refl|]. unfold ts_leb. rewrite E. reflexivity.
Qed.

Lemma ts_max_leb (a b : Timestamp) :
  ts_leb a (ts_max a b) = true /\ ts_leb b (ts_max a b) = true.
Proof.
  unfold ts_max. destruct (ts_ltb a b) eqn:E.
  - split; [|apply ts_leb_refl].
    apply ts_leb_iff. apply ts_ltb_iff in E. rewrite ts_ltb_iff. lia.
  - split; [apply ts_leb_refl|]. unfold ts_leb. rewrite E. reflexivity.
Qed.

Lemma fold_min_least (ts : list Timestamp) (t : Timestamp) :
  forall d, In d (t :: ts) -> ts_leb (fold_left ts_min ts t) d = true.
Proof.
  revert t. induction ts as [|a ts IH]; intros t d Hd.
  - destruct Hd as [<- | []]. apply ts_leb_refl.
  - simpl. destruct (ts_min_leb t a) as [H1 H2].
    pose proof (IH (ts_min t a) _ (or_introl eq_refl)) as H0.
    destruct Hd as [<- | [<- | Hd]].
    + exact (ts_leb_trans _ _ _ H0 H1).
    + exact (ts_leb_trans _ _ _ H0 H2).
    + apply IH. right. exact Hd.
Qed.

Lemma fold_max_greatest (ts : list Timestamp) (t : Timestamp) :
  forall d, In d (t :: ts) -> ts_leb d (fold_left ts_max ts t) = true.
Proof.
  revert t. induction ts as [|a ts IH]; intros t d Hd.
  - destruct Hd as [<- | []]. apply ts_leb_refl.
  - simpl. destruct (ts_max_leb t a) as [H1 H2].
    pose proof (IH (ts_max t a) _ (or_introl eq_refl)) as H0.
    destruct Hd as [<- | [<- | Hd]].
    + exact (ts_leb_trans _ _ _ H1 H0).
    + exact (ts_leb_trans _ _ _ H2 H0).
    + apply IH. right. exact Hd.
Qed.

(** X14. The date range written to the statistics runs from the day of
    the earliest dated row to the day of the latest one: both ends
    are dates of rows of the frame, and no row is dated before the
    first or after the second. *)
Theorem date_range_spans_frame (df : DataFrame) (s : Stats) :
  summary_stats df = Ok s ->
  exists r1 r2 d1 d2,
    In r1 df /\ AppliedDate r1 = Some d1 /\
    In r2 df /\ AppliedDate r2 = Some d2 /\
    date_range s = (ymd d1, ymd d2) /\
    forall r d, In r df -> AppliedDate r = Some d ->
                ts_leb d1 d = true /\ ts_leb d d2 = true.
Proof.
  unfold summary_stats.
  destruct (iloc0 (mode (map PermitTypeMapped df))) as [c|e]; simpl; [|discriminate].
  unfold col_min, col_max.
  destruct (dropna (map AppliedDate df)) as [|t ts] eqn:Ed; simpl; [discriminate|].
  intros H. injection H as <-. simpl.
  assert (Hrow : forall d, In d (t :: ts) ->
                           exists r, In r df /\ AppliedDate r = Some d).
  { intros d Hd. rewrite <- Ed in Hd. apply dropna_In, in_map_iff in Hd.
    destruct Hd as [r [Er Hr]]. eauto. }
  destruct (Hrow _ (fold_min_In ts t)) as [r1 [Hr1 E1]].
  destruct (Hrow _ (fold_max_In ts t)) as [r2 [Hr2 E2]].
  exists r1, r2, (fold_left ts_min ts t), (fold_left ts_max ts t).
  repeat split; try assumption.
  - apply fold_min_least. rewrite <- Ed. apply dropna_In. rewrite <- H0.
    apply in_map, H.
  - apply fold_max_greatest. rewrite <- Ed. apply dropna_In. rewrite <- H0.
    apply in_map, H.
Qed.

Lemma date_range_spans_frame_witness :
  exists r1 r2 d1 d2,
    In r1 gap_frame /\ AppliedDate r1 = Some d1 /\
    In r2 gap_frame /\ AppliedDate r2 = Some d2 /\
    (2024, 1, 15, (2024, 3, 31))%Z = (ymd d1, ymd d2) /\
    forall r d, In r gap_frame -> AppliedDate r = Some d ->
                ts_leb d1 d = true /\ ts_leb d d2 = true.
Proof.
  apply (date_range_spans_frame gap_frame
           (mkSummary 3 350%Q (Some (350 # 2)%Q) (Some (350 # 2)%Q)
                      "Building" ((2024, 1, 15), (2024, 3, 31))%Z)).
  vm_compute. reflexivity.
Defined.

(** ** Reordered columns *)

Lemma dropna_perm {A} (a b : list (option A)) :
  Permutation a b -> Permutation (dropna a) (dropna b).
Proof.
  induction 1 as [|x a b Hp IH|x y a|a b c H1 IH1 H2 IH2]; simpl.
  - apply perm_nil.
  - destruct x; [apply perm_skip|]; exact IH.
  - destruct x, y; try apply Permutation_refl. apply perm_swap.
  - eapply perm_trans; eassumption.
Qed.

Lemma column_perm {A} (f : PermitRecord -> option A) (df1 df2 : DataFrame) :
  Permutation df1 df2 ->
  Permutation (dropna (map f df1)) (dropna (map f df2)).
Proof. intros H. apply dropna_perm, Permutation_map, H. Qed.

Lemma sorted_same_counts (s1 s2 : list Q) :
  StronglySorted (fun x y => (x <= y)%Q) s1 ->
  StronglySorted (fun x y => (x <= y)%Q) s2 ->
  (forall v, length (filter (fun x => Qle_bool x v) s1)
             = length (filter (fun x => Qle_bool x v) s2)) ->
  Forall2 Qeq s1 s2.
Proof.
  intros H1. revert s2.
  induction H1 as [|x l1 Hs1 IH Hx]; intros s2 H2 Hcnt.
  - destruct s2 as [|y l2]; [constructor|].
    specialize (Hcnt y). simpl in Hcnt.
    rewrite (proj2 (Qle_bool_iff y y) (Qle_refl y)) in Hcnt. discriminate.
  - destruct s2 as [|y l2].
    + specialize (Hcnt x). simpl in Hcnt.
      rewrite (proj2 (Qle_bool_iff x x) (Qle_refl x)) in Hcnt. discriminate.
    + apply StronglySorted_inv in H2. destruct H2 as [Hs2 Hy].
      rewrite Forall_forall in Hx, Hy.
      assert (Hyx : (y <= x)%Q).
      { pose proof (Hcnt x) as Hc. simpl in Hc.
        rewrite (proj2 (Qle_bool_iff x x) (Qle_refl x)) in Hc.
        destruct (Qle_bool y x) eqn:E; [apply Qle_bool_iff, E|].
        destruct (filter (fun z => Qle_bool z x) l2) as [|z l] eqn:Ef;
          [discriminate|].
        assert (Hz : In z (filter (fun z => Qle_bool z x) l2))
          by (rewrite Ef; left; reflexivity).
        apply filter_In in Hz. destruct Hz as [Hz Hzx].
        apply Qle_bool_iff in Hzx. exact (Qle_trans _ _ _ (Hy z Hz) Hzx). }
      assert (Hxy : (x <= y)%Q).
      { pose proof (Hcnt y) as Hc. simpl in Hc.
        rewrite (proj2 (Qle_bool_iff y y) (Qle_refl y)) in Hc.
        destruct (Qle_bool x y) eqn:E; [apply Qle_bool_iff, E|].
        destruct (filter (fun z => Qle_bool z y) l1) as [|z l] eqn:Ef;
          [discriminate|].
        assert (Hz : In z (filter (fun z => Qle_bool z y) l1))
          by (rewrite Ef; left; reflexivity).
        apply filter_In in Hz. destruct Hz as [Hz Hzy].
        apply Qle_bool_iff in Hzy. exact (Qle_trans _ _ _ (Hx z Hz) Hzy). }
      assert (Exy : (x == y)%Q) by (apply Qle_antisym; assumption).
      constructor; [exact Exy|]. apply IH; [exact Hs2|].
      intros v. specialize (Hcnt v). simpl in Hcnt.
      rewrite (Qleb_comp x y Exy v v (Qeq_refl v)) in Hcnt.
      destruct (Qle_bool y v); simpl in Hcnt; lia.
Qed.

Lemma Qsort_perm_pointwise (a b : list Q) :
  Permutation a b -> Forall2 Qeq (Qsort a) (Qsort b).
Proof.
  intros H. apply sorted_same_counts; try apply Qsort_sorted.
  intros v. apply filter_length_perm. unfold Qsort.
  eapply perm_trans; [apply Permutation_sym, sort_by_perm|].
  eapply perm_trans; [exact H|apply sort_by_perm].
Qed.

Lemma Forall2_Qeq_nth (s1 s2 : list Q) :
  Forall2 Qeq s1 s2 -> forall i, (nth i s1 0 == nth i s2 0)%Q.
Proof.
  induction 1 as [|x y l1 l2 Hxy Hl IH]; intros [|i]; simpl;
    try reflexivity; [exact Hxy|apply IH].
Qed.

Lemma median_values_perm (a b : list Q) :
  Permutation a b -> same_value (median_values a) (median_values b).
Proof.
  intros H. pose proof (Qsort_perm_pointwise a b H) as HF.
  pose proof (Forall2_Qeq_nth _ _ HF) as Hn.
  unfold median_values. cbv zeta. rewrite <- (Forall2_length HF).
  destruct (length (Qsort a)) as [|n]; [exact I|]. cbv iota.
  destruct (Nat.even (S n)); unfold same_value.
  - rewrite (Hn (S n / 2 - 1)), (Hn (S n / 2)). reflexivity.
  - apply Hn.
Qed.

Lemma count_str_perm (v : string) (a b : list string) :
  Permutation a b -> count_str v a = count_str v b.
Proof. intros H. apply filter_length_perm, H. Qed.

Lemma unique_nil (l : list string) : unique l = [] -> l = [].
Proof. destruct l; [reflexivity|discriminate]. Qed.

Lemma max_count_le_perm (a b : list string) :
  Permutation a b -> max_count a <= max_count b.
Proof.
  intros H. destruct a as [|x a'] eqn:Ea; [simpl; unfold max_count; simpl; lia|].
  rewrite <- Ea in *.
  assert (Hne : unique a <> []).
  { intros E. apply unique_nil in E. congruence. }
  destruct (fold_max_attained (fun v => count_str v a) _ Hne) as [v [_ Ev]].
  fold (max_count a) in Ev. rewrite <- Ev, (count_str_perm v a b H).
  apply max_count_ge.
Qed.

Lemma max_count_perm (a b : list string) :
  Permutation a b -> max_count a = max_count b.
Proof.
  intros H. apply Nat.le_antisymm; apply max_count_le_perm;
    [exact H|apply Permutation_sym, H].
Qed.

Lemma sorted_strings_equal (l1 l2 : list string) :
  StronglySorted (le_by String.leb) l1 ->
  StronglySorted (le_by String.leb) l2 ->
  Permutation l1 l2 -> l1 = l2.
Proof.
  intros H1. revert l2.
  induction H1 as [|x l1 Hs1 IH Hx]; intros l2 H2 Hp.
  - apply Permutation_nil in Hp. congruence.
  - destruct l2 as [|y l2];
      [apply Permutation_sym, Permutation_nil in Hp; discriminate|].
    assert (Hxy : String.leb x y = true).
    { apply (sorted_head String.leb String.leb_total x l1);
        [constructor; assumption|].
      apply (Permutation_in _ (Permutation_sym Hp)). left. reflexivity. }
    assert (Hyx : String.leb y x = true).
    { apply (sorted_head String.leb String.leb_total y l2 H2).
      apply (Permutation_in _ Hp). left. reflexivity. }
    assert (E : x = y) by (apply String.leb_antisym; assumption).
    subst y. f_equal. apply IH.
    + apply StronglySorted_inv in H2. tauto.
    + exact (Permutation_cons_inv Hp).
Qed.

Lemma mode_perm (a b : list (option string)) :
  Permutation a b -> mode a = mode b.
Proof.
  intros H. pose proof (dropna_perm a b H) as Hd.
  apply sorted_strings_equal.
  - apply (sort_by_sorted String.leb String.leb_total string_leb_trans).
  - apply (sort_by_sorted String.leb String.leb_total string_leb_trans).
  - unfold mode. cbv zeta. unfold str_sort.
    eapply perm_trans; [apply Permutation_sym, sort_by_perm|].
    eapply perm_trans; [|apply sort_by_perm].
    apply NoDup_Permutation.
    + apply NoDup_filter, unique_NoDup.
    + apply NoDup_filter, unique_NoDup.
    + intros v. rewrite !filter_In, !unique_In, !Nat.eqb_eq.
      rewrite (count_str_perm v _ _ Hd), (max_count_perm _ _ Hd).
      split; intros [Hin E]; (split; [|exact E]).
      * exact (Permutation_in _ Hd Hin).
      * exact (Permutation_in _ (Permutation_sym Hd) Hin).
Qed.

Lemma ts_leb_antisym (a b : Timestamp) :
  ts_leb a b = true -> ts_leb b a = true -> a = b.
Proof.
  rewrite !ts_leb_iff, !ts_ltb_iff. destruct a, b. simpl. intros H1 H2.
  f_equal; lia.
Qed.

Lemma col_min_perm (a b : list (option Timestamp)) :
  Permutation a b -> col_min a = col_min b.
Proof.
  intros H. pose proof (dropna_perm a b H) as Hd. unfold col_min.
  destruct (dropna a) as [|t1 ts1], (dropna b) as [|t2 ts2].
  - reflexivity.
  - apply Permutation_nil in Hd. discriminate.
  - apply Permutation_sym, Permutation_nil in Hd. discriminate.
  - f_equal. apply ts_leb_antisym.
    + apply fold_min_least, (Permutation_in _ (Permutation_sym Hd)), fold_min_In.
    + apply fold_min_least, (Permutation_in _ Hd), fold_min_In.
Qed.

Lemma col_max_perm (a b : list (option Timestamp)) :
  Permutation a b -> col_max a = col_max b.
Proof.
  intros H. pose proof (dropna_perm a b H) as Hd. unfold col_max.
  destruct (dropna a) as [|t1 ts1], (dropna b) as [|t2 ts2].
  - reflexivity.
  - apply Permutation_nil in Hd. discriminate.
  - apply Permutation_sym, Permutation_nil in Hd. discriminate.
  - f_equal. apply ts_leb_antisym.
    + apply fold_max_greatest, (Permutation_in _ Hd), fold_max_In.
    + apply fold_max_greatest, (Permutation_in _ (Permutation_sym Hd)), fold_max_In.
Qed.

Lemma unique_perm (a b : list string) :
  Permutation a b -> Permutation (unique a) (unique b).
Proof.
  intros H. apply NoDup_Permutation; try apply unique_NoDup.
  intros v. rewrite !unique_In. split; apply Permutation_in;
    [exact H|apply Permutation_sym, H].
Qed.

Lemma count_month_perm (m : Z) (df1 df2 : DataFrame) :
  Permutation df1 df2 -> count_month m df1 = count_month m df2.
Proof. intros H. apply filter_length_perm, H. Qed.

(** ** The rows of the time series *)

Lemma month_end_next (m : Z) : ts_ltb (month_end m) (month_end (m + 1)) = true.
Proof.
  apply ts_ltb_iff. unfold month_end. simpl.
  pose proof (Z.div_mod m 12 ltac:(lia)) as H1.
  pose proof (Z.mod_pos_bound m 12 ltac:(lia)) as B1.
  pose proof (Z.div_mod (m + 1) 12 ltac:(lia)) as H2.
  pose proof (Z.mod_pos_bound (m + 1) 12 ltac:(lia)) as B2.
  lia.
Qed.

Lemma ts_ltb_trans (a b c : Timestamp) :
  ts_ltb a b = true -> ts_ltb b c = true -> ts_ltb a c = true.
Proof. rewrite !ts_ltb_iff. lia. Qed.

Lemma month_range_cons (lo : Z) (n : nat) :
  month_range lo (S n) = lo :: month_range (lo + 1) n.
Proof.
  unfold month_range. simpl. f_equal; [lia|].
  rewrite <- seq_shift, map_map. apply map_ext. intros i. lia.
Qed.

Lemma month_range_ascending (n : nat) (lo : Z) (count : Z -> nat) :
  Sorted (fun a b : Timestamp * nat => ts_ltb (fst a) (fst b) = true)
         (map (fun m => (month_end m, count m)) (month_range lo n)).
Proof.
  revert lo. induction n as [|n IH]; intros lo; [constructor|].
  rewrite month_range_cons. simpl. constructor; [apply IH|].
  destruct n as [|n]; [constructor|].
  rewrite month_range_cons. simpl. constructor. simpl. apply month_end_next.
Qed.

(** X13. The rows of the time series come in ascending order of their
    month: each label is strictly earlier than every label after it,
    so no month appears twice. *)
Theorem monthly_permits_ascending (df : DataFrame) :
  StronglySorted (fun a b : Timestamp * nat => ts_ltb (fst a) (fst b) = true)
                 (monthly_permits df).
Proof.
  apply Sorted_StronglySorted.
  - intros a b c. apply ts_ltb_trans.
  - unfold monthly_permits.
    destruct (col_min (map AppliedDate df)); [|constructor].
    destruct (col_max (map AppliedDate df)); [|constructor].
    apply month_range_ascending.
Qed.

(** ** The pie chart and the statistics *)

Lemma value_counts_In (col : list (option string)) (k : string) (n : nat) :
  In (k, n) (value_counts col) <->
  In k (dropna col) /\ n = count_str k (dropna col).
Proof.
  unfold value_counts. cbv zeta. rewrite sort_by_In, in_map_iff. split.
  - intros [v [Ev Hv]]. injection Ev as Ek En. subst k n.
    split; [apply unique_In, Hv|reflexivity].
  - intros [Hk ->]. exists k. split; [reflexivity|apply unique_In, Hk].
Qed.

(** X16. The most common type of the statistics has as many permits as
    the first slice of the pie chart (the two may name different
    types when several share the greatest count). *)
Theorem most_common_type_matches_first_slice (df : DataFrame) (s : Stats) :
  summary_stats df = Ok s ->
  exists k n rest,
    value_counts (map PermitTypeMapped df) = (k, n) :: rest /\
    length (filter (in_group (most_common_type s)) df) = n /\
    length (filter (in_group k) df) = n.
Proof.
  intros Hs. apply summary_stats_fields in Hs.
  destruct Hs as [_ [_ [_ [_ Hmode]]]].
  set (col := map PermitTypeMapped df) in *.
  assert (Hc : In (most_common_type s) (mode col)).
  { destruct (mode col) as [|c l]; [discriminate|].
    injection Hmode as <-. left. reflexivity. }
  apply mode_In in Hc. destruct Hc as [Hin Hmax].
  assert (Hgroup : forall k, count_str k (dropna col)
                             = length (filter (in_group k) df)).
  { intros k. unfold col, count_str, in_group. clear.
    induction df as [|r df IH]; [reflexivity|]. simpl.
    destruct (PermitTypeMapped r) as [c|]; simpl; [|exact IH].
    rewrite (String.eqb_sym k c). destruct (String.eqb c k); simpl; congruence. }
  assert (Hentry : In (most_common_type s, max_count (dropna col))
                      (value_counts col)).
  { apply value_counts_In. split; [apply dropna_In, Hin|].
    symmetry. exact Hmax. }
  assert (Hsorted : StronglySorted (fun a b => snd b <= snd a)
                                   (value_counts col)).
  { unfold value_counts.
    apply (sorted_by_impl (fun x y : string * nat => snd y <=? snd x)).
    - intros x y H. apply Nat.leb_le, H.
    - apply sort_by_sorted.
      + intros x y. rewrite !Nat.leb_le. lia.
      + intros x y z. rewrite !Nat.leb_le. lia. }
  destruct (value_counts col) as [|[k n] rest] eqn:Ev; [destruct Hentry|].
  exists k, n, rest. split; [reflexivity|].
  assert (Hk : In (k, n) (value_counts col)) by (rewrite Ev; left; reflexivity).
  apply value_counts_In in Hk. destruct Hk as [_ Hn].
  assert (Hn_max : n = max_count (dropna col)).
  { apply Nat.le_antisymm; [rewrite Hn; apply max_count_ge|].
    destruct Hentry as [E|Hrest]; [injection E as _ <-; lia|].
    apply StronglySorted_inv in Hsorted. destruct Hsorted as [_ Hall].
    rewrite Forall_forall in Hall. exact (Hall _ Hrest). }
  split.
  - rewrite <- Hgroup, Hmax. symmetry. exact Hn_max.
  - rewrite <- Hgroup. symmetry. exact Hn.
Qed.

Lemma most_common_type_matches_first_slice_witness :
  exists k n rest,
    value_counts (map PermitTypeMapped tie_frame) = (k, n) :: rest /\
    length (filter (in_group "Building") tie_frame) = n /\
    length (filter (in_group k) tie_frame) = n.
Proof.
  apply (most_common_type_matches_first_slice tie_frame
           (mkSummary 2 300%Q (Some (300 # 2)%Q) (Some (300 # 2)%Q)
                      "Building" ((2024, 1, 15), (2024, 1, 16))%Z)).
  vm_compute. reflexivity.
Defined.

(** * The functions as they are written *)

(** ** Names that the functions cannot find *)

(** C3. With the input file in place no row is parsed at all, a row
    with a malformed date no more than any other: [pd] is a local
    name of [main], so [pd.read_csv] raises [NameError] inside
    [load_and_clean_data]; the exception is logged and raised again,
    [main] logs it once more and exits with status 1, having bound
    no frame and written no file. *)
Theorem existing_input_aborts_load
        (parse_datetime : string -> option Timestamp)
        (parse_numeric : string -> option Q)
        (w : World) (rows : list RawRow) :
  csv w = Some rows ->
  snd (load_and_clean_data parse_datetime parse_numeric w) = Raise NameError
  /\ snd (main parse_datetime parse_numeric w) = 1%Z
  /\ frame (fst (main parse_datetime parse_numeric w)) = frame w
  /\ files (fst (main parse_datetime parse_numeric w)) = files w.
Proof.
  intros Hcsv. destruct w as [fr fs lg cs ck]. simpl in Hcsv. subst cs.
  repeat split.
Qed.

Lemma existing_input_aborts_load_witness :
  snd (load_and_clean_data parse_iso_date parse_digits sample_world)
  = Raise NameError
  /\ snd (main parse_iso_date parse_digits sample_world) = 1%Z
  /\ frame (fst (main parse_iso_date parse_digits sample_world)) = []
  /\ files (fst (main parse_iso_date parse_digits sample_world)) = [].
Proof.
  apply (existing_input_aborts_load parse_iso_date parse_digits sample_world
           sample_rows).
  reflexivity.
Defined.

(** C5. With the input file in place neither filter is ever applied:
    [load_and_clean_data] returns no frame, and of its log entries
    only the first is written before the error, none about dropped
    or kept rows. *)
Theorem cleaning_is_never_reached
        (parse_datetime : string -> option Timestamp)
        (parse_numeric : string -> option Q)
        (w : World) (rows : list RawRow) :
  csv w = Some rows ->
  (forall df, snd (load_and_clean_data parse_datetime parse_numeric w) <> Ok df)
  /\ log (fst (load_and_clean_data parse_datetime parse_numeric w))
     = Error "Error loading data" :: Info "Attempting to load data" []
       :: log w.
Proof.
  intros Hcsv. destruct w as [fr fs lg cs ck]. simpl in Hcsv. subst cs.
  split; [|reflexivity]. intros df H. discriminate H.
Qed.

Lemma cleaning_is_never_reached_witness :
  (forall df, snd (load_and_clean_data parse_iso_date parse_digits input_world)
              <> Ok df)
  /\ log (fst (load_and_clean_data parse_iso_date parse_digits input_world))
     = [Error "Error loading data"; Info "Attempting to load data" []].
Proof.
  apply (cleaning_is_never_reached parse_iso_date parse_digits input_world
           input_rows).
  reflexivity.
Defined.

(** C2. No cost statistics are computed: [px] is a local name of
    [main], so [create_permit_type_analysis] raises [NameError] at
    [px.pie], after the type counts and before the [groupby]; the
    exception is logged and raised again and no page is written. *)
Theorem permit_type_analysis_stops_at_pie (w : World) :
  snd (create_permit_type_analysis w) = Raise NameError
  /\ files (fst (create_permit_type_analysis w)) = files w
  /\ frame (fst (create_permit_type_analysis w)) = frame w
  /\ log (fst (create_permit_type_analysis w))
     = Error "Error creating permit type analysis"
       :: Info "Creating permit type analysis" [] :: log w.
Proof. destruct w as [fr fs lg cs ck]. repeat split. Qed.

(** C4. No permit is classified: [folium] is a local name of [main],
    so [create_map] raises [NameError] at [folium.Map], its first
    statement after the log entry; neither the heat points nor the
    large permits are computed and no page is written. *)
Theorem create_map_stops_at_base_map (w : World) :
  snd (create_map w) = Raise NameError
  /\ files (fst (create_map w)) = files w
  /\ frame (fst (create_map w)) = frame w
  /\ log (fst (create_map w))
     = Error "Error creating map" :: Info "Creating map visualization" []
       :: log w.
Proof. destruct w as [fr fs lg cs ck]. repeat split. Qed.

(** X1. As it is written [main] never succeeds: whatever the state,
    it ends with exit status 1, writes no file and binds no frame.
    With the input file in place the [NameError] of [pd.read_csv] is
    logged by [load_and_clean_data] and again by [main]. *)
Theorem main_never_succeeds
        (parse_datetime : string -> option Timestamp)
        (parse_numeric : string -> option Q) (w : World) :
  snd (main parse_datetime parse_numeric w) = 1%Z
  /\ files (fst (main parse_datetime parse_numeric w)) = files w
  /\ frame (fst (main parse_datetime parse_numeric w)) = frame w
  /\ (forall rows, csv w = Some rows ->
        log (fst (main parse_datetime parse_numeric w))
        = Error "An unexpected error occurred" :: Error "Error loading data"
          :: Info "Attempting to load data" [] :: log w).
Proof.
  destruct w as [fr fs lg cs ck]. destruct cs as [rows|].
  - repeat split.
  - repeat split. intros rows H. discriminate H.
Qed.

Lemma main_never_succeeds_witness :
  snd (main parse_iso_date parse_digits input_world) = 1%Z
  /\ files (fst (main parse_iso_date parse_digits input_world)) = []
  /\ frame (fst (main parse_iso_date parse_digits input_world)) = []
  /\ log (fst (main parse_iso_date parse_digits input_world))
     = [ Error "An unexpected error occurred"; Error "Error loading data";
         Info "Attempting to load data" [] ].
Proof.
  destruct (main_never_succeeds parse_iso_date parse_digits input_world)
    as [Hexit [Hfiles [Hframe Hlog]]].
  split; [exact Hexit|]. split; [exact Hfiles|]. split; [exact Hframe|].
  apply (Hlog input_rows). reflexivity.
Defined.


(** ** The monthly counts of a frame with rows *)

Lemma resample_size_rows (df : DataFrame) :
  df <> [] -> resample_size df = Ok (monthly_permits df).
Proof. destruct df; [congruence|reflexivity]. Qed.

Lemma summary_stats_succeeds (df : DataFrame) (r0 : PermitRecord) (k0 : string) :
  dated df -> In r0 df -> PermitTypeMapped r0 = Some k0 ->
  exists s, summary_stats df = Ok s.
Proof.
  intros Hd Hr0 Hk0.
  assert (Hne : df <> []) by (intros ->; destruct Hr0).
  destruct (col_min_max_dated df Hd Hne) as [earliest [latest [Hmin Hmax]]].
  destruct (most_common_by_mode df r0 k0 Hr0 Hk0) as [c Hc].
  eexists. unfold summary_stats. rewrite Hc, Hmin, Hmax. simpl. reflexivity.
Qed.

(** C1 (as the code has it). On a clean set without records the
    resampling raises [AttributeError] and there is no aggregate.  On
    every other clean set [resample('ME').size()] lays a regular
    monthly grid over the frame: the result has one row for each of
    a run of consecutive calendar months, labelled with the month's
    last day and holding the number of rows dated in that month;
    every month lying between the months of two rows of the frame is
    on the grid, so a month without any row in between comes out with
    the count 0; a count is positive exactly for the months in which
    some row is dated. *)
Theorem monthly_permits_dense :
  resample_size [] = Raise AttributeError
  /\ forall df : DataFrame,
       dated df -> df <> [] ->
       exists rows,
         resample_size df = Ok rows
         /\ (exists lo n,
               rows = map (fun m => (month_end m, count_month m df))
                          (month_range lo n))
         /\ (forall r1 r2 d1 d2 m,
               In r1 df -> In r2 df ->
               AppliedDate r1 = Some d1 -> AppliedDate r2 = Some d2 ->
               (month_index d1 <= m <= month_index d2)%Z ->
               In (month_end m, count_month m df) rows)
         /\ (forall m, 0 < count_month m df <->
                       exists r d, In r df /\ AppliedDate r = Some d /\
                                   month_index d = m)
         /\ (forall r d, In r df -> AppliedDate r = Some d ->
               month_end (month_index d) =
               mkTs (ts_year d) (ts_month d)
                    (days_in_month (ts_year d) (ts_month d)) 0).
Proof.
  split; [reflexivity|]. intros df Hd Hne.
  exists (monthly_permits df). split; [apply resample_size_rows, Hne|].
  destruct (col_min_max_dated df Hd Hne) as [earliest [latest [Hmin Hmax]]].
  split; [|split; [|split]].
  - unfold monthly_permits. rewrite Hmin, Hmax. eexists _, _. reflexivity.
  - intros r1 r2 d1 d2 m H1 H2 E1 E2 Hm.
    pose proof (months_enclosed df earliest latest Hd Hmin Hmax r1 d1 H1 E1) as B1.
    pose proof (months_enclosed df earliest latest Hd Hmin Hmax r2 d2 H2 E2) as B2.
    unfold monthly_permits. rewrite Hmin, Hmax. cbv zeta.
    apply (in_map (fun m => (month_end m, count_month m df))).
    unfold month_range. apply in_map_iff.
    exists (Z.to_nat (m - month_index earliest)). split; [lia|].
    apply in_seq. lia.
  - intros m. apply count_month_pos.
  - intros r d Hr Ed. apply month_end_index.
    destruct (Hd r Hr) as [d' [Ed' [Hm _]]]. rewrite Ed in Ed'.
    injection Ed' as <-. exact Hm.
Qed.

Lemma monthly_permits_dense_witness :
  exists rows,
    resample_size gap_frame = Ok rows
    /\ (exists lo n,
          rows = map (fun m => (month_end m, count_month m gap_frame))
                     (month_range lo n))
    /\ In (day 2024 2 29, 0) rows.
Proof.
  destruct monthly_permits_dense as [_ H].
  destruct (H gap_frame gap_frame_dated ltac:(discriminate))
    as [rows [Hrows [Hgrid [Hin _]]]].
  exists rows. split; [exact Hrows|]. split; [exact Hgrid|].
  apply (Hin (nth 0 gap_frame (permit (day 0 0 0) None ""))
             (nth 1 gap_frame (permit (day 0 0 0) None ""))
             (day 2024 1 15) (day 2024 3 2) 24289%Z).
  - left. reflexivity.
  - right. left. reflexivity.
  - reflexivity.
  - reflexivity.
  - vm_compute. split; discriminate.
Defined.

(** C7 (as the code has it). On a clean set with records the sizes
    of the monthly bins add up to the number of rows, which is what
    [generate_summary_stats] reports as [total_permits] whenever it
    reports (it does as soon as one row has a permit type). *)
Theorem monthly_counts_sum_to_total (df : DataFrame) :
  dated df -> df <> [] ->
  exists rows,
    resample_size df = Ok rows
    /\ sum_counts rows = length df
    /\ (forall s, summary_stats df = Ok s -> sum_counts rows = total_permits s)
    /\ (forall r0 k0, In r0 df -> PermitTypeMapped r0 = Some k0 ->
          exists s, summary_stats df = Ok s /\
                    sum_counts rows = total_permits s).
Proof.
  intros Hd Hne. exists (monthly_permits df).
  pose proof (monthly_permits_sum df Hd) as Hsum.
  split; [apply resample_size_rows, Hne|]. split; [exact Hsum|]. split.
  - intros s Hs. apply summary_stats_fields in Hs. destruct Hs as [-> _].
    exact Hsum.
  - intros r0 k0 Hr0 Hk0.
    destruct (summary_stats_succeeds df r0 k0 Hd Hr0 Hk0) as [s Hs].
    exists s. split; [exact Hs|].
    apply summary_stats_fields in Hs. destruct Hs as [-> _]. exact Hsum.
Qed.

Lemma monthly_counts_sum_to_total_witness :
  exists rows s,
    resample_size gap_frame = Ok rows /\ sum_counts rows = 3 /\
    summary_stats gap_frame = Ok s /\ sum_counts rows = total_permits s.
Proof.
  destruct (monthly_counts_sum_to_total gap_frame gap_frame_dated
              ltac:(discriminate)) as [rows [Hrows [Hsum [_ Hstats]]]].
  destruct (Hstats (permit (day 2024 1 15) (Some 100%Q) "Building")
                   "Building"%string (or_introl eq_refl) eq_refl)
    as [s [Hs Htotal]].
  exists rows, s. auto.
Defined.

(** C7 (as stated): on the clean set without records there are no
    monthly counts to add up and no [total_permits] to compare them
    with, both computations raise. *)
Lemma monthly_counts_undefined_on_empty :
  resample_size [] = Raise AttributeError
  /\ snd (create_time_series empty_world) = Raise AttributeError
  /\ summary_stats [] = Raise IndexError
  /\ snd (generate_summary_stats empty_world) = Raise IndexError.
Proof. repeat split. Qed.

(** ** The total value *)




(** ** The order of the rows does not matter *)

(** X17. The statistics other than the total and the mean do not
    depend on the order of the rows: on a reordered frame [generate_summary_stats]
    succeeds alike and reports the same number of permits, the same
    most common type, the same date range and a median equal as a
    number. *)
Theorem statistics_ignore_row_order (df1 df2 : DataFrame) (s1 : Stats) :
  Permutation df1 df2 ->
  summary_stats df1 = Ok s1 ->
  exists s2,
    summary_stats df2 = Ok s2 /\
    total_permits s1 = total_permits s2 /\
    same_value (median_value s1) (median_value s2) /\
    most_common_type s1 = most_common_type s2 /\
    date_range s1 = date_range s2.
Proof.
  intros Hp. unfold summary_stats.
  rewrite <- (mode_perm _ _ (Permutation_map PermitTypeMapped Hp)).
  rewrite <- (col_min_perm _ _ (Permutation_map AppliedDate Hp)).
  rewrite <- (col_max_perm _ _ (Permutation_map AppliedDate Hp)).
  destruct (iloc0 (mode (map PermitTypeMapped df1))) as [c|e]; simpl;
    [|discriminate].
  destruct (strftime_ymd (col_min (map AppliedDate df1))) as [d1|e]; simpl;
    [|discriminate].
  destruct (strftime_ymd (col_max (map AppliedDate df1))) as [d2|e]; simpl;
    [|discriminate].
  intros H. injection H as <-. eexists. split; [reflexivity|]. simpl.
  pose proof (Permutation_map EstProjectCost Hp) as Hc.
  split; [apply Permutation_length, Hp|].
  split; [|split; reflexivity].
  unfold col_median. apply median_values_perm, dropna_perm, Hc.
Qed.

Lemma statistics_ignore_row_order_witness :
  exists s2,
    summary_stats (rev gap_frame) = Ok s2 /\
    3 = total_permits s2 /\
    same_value (Some (350 # 2)%Q) (median_value s2) /\
    "Building"%string = most_common_type s2 /\
    ((2024, 1, 15), (2024, 3, 31))%Z = date_range s2.
Proof.
  apply (statistics_ignore_row_order gap_frame (rev gap_frame)
           (mkSummary 3 350%Q (Some (350 # 2)%Q) (Some (350 # 2)%Q)
                      "Building" ((2024, 1, 15), (2024, 3, 31))%Z)).
  - apply Permutation_rev.
  - vm_compute. reflexivity.
Defined.

(** X18. What the two functions compute before their charts does not
    depend on the order of the rows: on a reordered frame the
    resampling fails alike or yields the same monthly counts, and
    the type counts are the same up to their order. *)
Theorem derivations_ignore_row_order (df1 df2 : DataFrame) :
  Permutation df1 df2 ->
  resample_size df1 = resample_size df2
  /\ Permutation (value_counts (map PermitTypeMapped df1))
                 (value_counts (map PermitTypeMapped df2)).
Proof.
  intros Hp. split.
  - assert (Hm : monthly_permits df1 = monthly_permits df2).
    { unfold monthly_permits.
      rewrite <- (col_min_perm _ _ (Permutation_map AppliedDate Hp)).
      rewrite <- (col_max_perm _ _ (Permutation_map AppliedDate Hp)).
      destruct (col_min (map AppliedDate df1)) as [earliest|]; [|reflexivity].
      destruct (col_max (map AppliedDate df1)) as [latest|]; [|reflexivity].
      cbv zeta. apply map_ext. intros m.
      rewrite (count_month_perm m df1 df2 Hp). reflexivity. }
    unfold resample_size. rewrite Hm.
    destruct df1 as [|r1 df1], df2 as [|r2 df2]; try reflexivity.
    + apply Permutation_nil in Hp. discriminate.
    + apply Permutation_sym, Permutation_nil in Hp. discriminate.
  - unfold value_counts. cbv zeta.
    pose proof (column_perm PermitTypeMapped df1 df2 Hp) as Hc.
    eapply perm_trans; [apply Permutation_sym, sort_by_perm|].
    eapply perm_trans; [|apply sort_by_perm].
    rewrite (map_ext (fun v => (v, count_str v (dropna (map PermitTypeMapped df1))))
                     (fun v => (v, count_str v (dropna (map PermitTypeMapped df2))))).
    + apply Permutation_map, unique_perm, Hc.
    + intros v. rewrite (count_str_perm v _ _ Hc). reflexivity.
Qed.

Lemma derivations_ignore_row_order_witness :
  resample_size gap_frame = resample_size (rev gap_frame)
  /\ Permutation (value_counts (map PermitTypeMapped gap_frame))
                 (value_counts (map PermitTypeMapped (rev gap_frame))).
Proof.
  apply (derivations_ignore_row_order gap_frame (rev gap_frame)).
  apply Permutation_rev.
Defined.
